(* ===== verification/_CoqProject ===== *)
-Q . S2P
Prelude.v
PyStr.v
Regex.v
Fence.v
Json.v
Prompt.v
Config.v
App.v
Pages.v
Demo.v
