(* ===== verification/Prelude.v ===== *)
(** * A verification library for [src/resume_parser.py]

    The program is a Streamlit page (one Python file): the user uploads a
    resume PDF; [extract_text_from_pdf] (lines 69-72) joins the text of its
    pages with line breaks; [parse_resume_with_gemini] (lines 75-81) puts
    that text into [PROMPT_TEMPLATE] (lines 14-66) with [str.replace],
    sends the prompt to the Gemini model and removes the Markdown code
    fence from the reply with [str.strip] and a multi-line [re.sub]; the
    script (lines 84-110) runs the two under spinners, then, inside one
    [try], parses the text with [json.loads], shows it, scores it with
    [ats_score.calculate_score] and shows the score, or on an [Exception]
    shows an error, the raw text and the exception.

    ** Files, in dependency order

    - [Prelude] (this file): Python strings as lists of code points
      ([pystr]), the literal notation [«"..."»], [starts_with], the hint
      databases [pystr] and [pyrw], the tactics [destruct_eqb] and
      [decide_eval], and the list lemmas the components share.
    - [PyStr], Module [PyStr]: the [str] methods the program calls, after
      CPython: [isspace]/[lstrip]/[rstrip]/[strip] ([do_strip]), [join]
      ([PyUnicode_Join]), [replace]/[replace_go] ([replace], with
      [count = -1] and the empty-[old] case).
    - [Regex], Module [Regex]: the part of [re] line 80 needs: patterns
      built from literals, concatenation, alternation, greedy [?] and the
      multi-line anchors; the backtracking matcher [matches] (CPS, first
      success in branch order, as [SRE(match)]); [search] with
      [must_advance] ([SRE(search)]); [sub_loop]/[re_sub] ([pattern_subx]).
      Positions are [cursor]s (code points passed, reversed; code points
      ahead). [scan] is the plain left-to-right replacement loop.
    - [Fence], Module [Fence]: [FENCE_RE] = [r"^```(?:json)?|```$"] with
      [re.MULTILINE], and [clean_text], line 80 as a whole.
    - [Json], Module [Json]: the texts [json.loads] accepts with its
      defaults (line 98): the grammar of RFC 8259 as the mutual inductive
      predicates [json_value]/[json_elems]/[json_members] on code points,
      strict strings (no raw control character) and Python's [NaN],
      [Infinity], [-Infinity]; [json_text] is a value between white space.
    - [Prompt], Module [Prompt]: [PROMPT_TEMPLATE] (the literal, with [@]
      written for each double quote and [dq] putting them back) and
      [prompt], line 77.
    - [Config], Module [Config]: lines 9-11, the process state
      ([os.environ] as a [gmap] and the key given to [genai.configure]),
      [set_env] (line 10), [configure] (line 11) and [setup].
    - [App], Module [App]: the collaborators as the interface (type class)
      [Externals] (PyMuPDF, the Gemini call, [json.loads],
      [calculate_score], Python's formatting and [isinstance(e, Exception)]);
      exceptions as [res] ([Ok]/[Raise]); the page as the list of [delta]s
      the script writes, threaded by the state and exception monad [M]
      ([bind], [emit], [with_spinner] for [with st.spinner], [try_except]
      for [try/except Exception]); [extract_text_from_pdf],
      [parse_resume_with_gemini], [header], [show_result], [script], [run].
    - [Pages], Module [Pages]: the page of a run read as the trace of
      what the user sees (each prefix is a moment of the run); the
      spinner depth [depth_after] and the invariant [keeps_depth] of [M];
      the properties of every path at once.
    - [Demo], Module [Demo]: a concrete instance of [Externals] and the
      runs that witness the theorems of [App].

    ** What is proved

    - [re.sub] terminates: [Regex.sub_loop_total] shows the fuel
      [2 * len + 2] is never exhausted (each round consumes a code point or
      sets [must_advance], measure [2 * len + (1 if not must_advance)]).
      For a pattern that cannot match the empty string it is the plain
      scan ([Regex.re_sub_scan]). The backtracking matcher refines the
      declarative semantics [in_re]: what it finds is a match
      ([matches_sound]) and it finds one when one exists
      ([matches_complete]). [search] returns the leftmost accepted match
      ([search_leftmost]: no earlier position has one) and fails only when
      no position has one ([search_none]).
    - Line 80 ([Fence]): a reply [```json] or [```] / body / [```] with
      white space around it becomes the body, stripped, when no line of the
      body starts or ends with three backticks, which holds for any JSON
      text ([clean_text_fenced]); an unfenced body is only stripped
      ([clean_text_unfenced]). In general the line removes exactly the
      fence markers and a [json] right after the opening one: prose before
      and after the fence and any other tag stay ([clean_text_keeps_prose],
      [after_tag]).
    - JSON replies ([Json]): every JSON text is [fence_free] (a backtick
      occurs only inside a string, which holds no raw line break; proved by
      mutual induction on the grammar), and a JSON value has no white space
      at its ends. So a fenced JSON reply becomes the JSON text stripped
      ([clean_text_fenced_json]) and an unfenced one is only stripped
      ([clean_text_json]), whatever backticks its strings contain; every
      reply of the shape the prompt asks for ([json_reply]) becomes a
      JSON value ([clean_text_json_value]).
    - Line 77 ([Prompt]): the prompt is the instructions, the resume text
      verbatim (not searched again) and a line break ([prompt_spec]).
    - The script ([App]): the page and outcome of every path:
      success, a JSON error, an error of [calculate_score] (reported as a
      JSON parse failure after the success message: [run_score_error]), a
      [BaseException], an error while reading the PDF or calling the model;
      the first page whose text cannot be read makes the extraction raise
      its exception ([extract_text_page_error]).
    - Every path at once ([Pages]): which exceptions can escape a run
      ([run_uncaught]); exactly when the error message is shown
      ([run_error_shown]); the spinners are balanced at the end
      ([run_spinners_closed], an invariant of [M]); safety at every
      moment: never two spinners at once ([run_one_spinner]) and a score
      only when [calculate_score] returned it ([run_score_shown]);
      liveness: every spinner shown is removed later
      ([run_spinner_ends]).
      Against the interface [JsonLoadsContract] (what the script needs from
      [json.loads]: every JSON text is accepted, an assumption that CPython
      meets except on integers of more than 4300 digits and on nesting past
      the recursion limit), a model that answers as
      the prompt asks leads to the page showing the parsed JSON
      ([run_reply_as_asked]), which [Demo] instantiates.
    - Lines 9-11 ([Config]): the client is configured with the literal
      key whatever the environment held ([setup_uses_literal]).
    - [PyStr]: [strip] removes exactly the surrounding white space and is
      idempotent; [replace] replaces every occurrence, left to right and
      without overlap ([replace_join]: [s == old.join(pieces)] gives
      [s.replace(old, new) == new.join(pieces)]); the length of [join].

    ** Plan for the next steps

    - JSON: the decoder itself (from the grammar to Python values) and the
      theorem that [json.loads] succeeds exactly on [json_text].
    - A trace of the collaborators' calls (an event type for the calls and
      the script as an interaction tree interpreted into [M]), to count
      the calls of each path: every run with a readable file calls the
      model once, and Streamlit reruns the whole script on each
      interaction, so nothing is cached between runs.

    ** Not modelled

    PyMuPDF's text extraction, the Gemini service, the decoding done by
    [json.loads] (its input language is [Json.json_text]), the unseen
    [ats_score] module, and Streamlit's rendering and reruns are not
    implemented here: the script is proved for every behaviour of
    [Externals]. The monad [M] records what the page shows, not the
    calls made to the collaborators, so their order and number are not
    stated. Non-ASCII code points are
    carried as numbers; the literals of the source that are not ASCII (the
    emoji of the page texts) are written as their code points. [re] is
    modelled for the constructs line 80 uses, not for repetition, classes
    or groups that capture. The key literal of line 10 is kept abstract
    (a section variable of [Config]). *)

From Stdlib Require Import String Ascii.
From stdpp Require Export base list numbers sets.
From Stdlib Require Export NArith Lia.
Export ListNotations.
Export String.StringSyntax.

(** ** Python strings

    A Python [str] is a sequence of Unicode code points; we keep it as a
    list of code points ([N]), so that [str.isspace] can be stated on the
    code points CPython uses and the regular expression engine compares
    code points exactly as [sre] does. *)

Definition pychar := N.
Definition pystr := list pychar.

(** ASCII literals of the source, read as lists of code points. *)
Definition of_string (s : String.string) : pystr :=
  map Ascii.N_of_ascii (String.list_ascii_of_string s).

Declare Scope py_scope.
Delimit Scope py_scope with py.
(** [«"..."»] is the code-point list of an ASCII literal, computed when
    the term is read, so that proofs see the code points themselves. *)
Notation "« s »" :=
  (ltac:(let x := eval vm_compute in (of_string s%string) in exact x))
  (only parsing) : py_scope.
Open Scope py_scope.

Definition NL : pychar := 10%N.        (** ['\n'] *)
Definition BACKTICK : pychar := 96%N.  (** ['`'] *)

(** [starts_with p s]: [s.startswith(p)]. *)
Fixpoint starts_with (p s : pystr) : bool :=
  match p, s with
  | [], _ => true
  | c :: p', d :: s' => N.eqb c d && starts_with p' s'
  | _ :: _, [] => false
  end.

(** ** Automation *)

(** Code-point comparisons stay folded under [simpl] and [cbn], so that
    [destruct_eqb] can split on them. *)
#[global] Arguments N.eqb : simpl never.

Create HintDb pystr discriminated.
Create Rewrite HintDb pyrw.

#[export] Hint Rewrite app_nil_r app_assoc length_app length_rev rev_app_distr
  rev_involutive : pyrw.

(** Case analysis on the boolean tests of the development. *)
Ltac destruct_eqb :=
  repeat match goal with
  | |- context [N.eqb ?a ?b] =>
      destruct (N.eqb_spec a b); subst; try discriminate; try (exfalso; congruence)
  | H : context [N.eqb ?a ?b] |- _ =>
      destruct (N.eqb_spec a b); subst; try discriminate; try (exfalso; congruence)
  end.

(** Proves a decidable proposition on closed terms by evaluating its
    decision procedure. *)
Ltac decide_eval := apply (bool_decide_unpack _); vm_compute; exact I.

(** ** Generic lemmas shared by the components *)

Lemma starts_with_spec (p s : pystr) :
  starts_with p s = true <-> exists r, s = p ++ r.
Proof.
  revert s. induction p as [|c p IH]; intros s; simpl.
  - split; eauto.
  - destruct s as [|d s]; split.
    + discriminate.
    + intros [r Hr]; discriminate.
    + intros [Hc%N.eqb_eq Hp]%andb_prop. apply IH in Hp as [r ->]. subst. eauto.
    + intros [r Hr]. injection Hr as -> ->.
      rewrite N.eqb_refl. apply IH. eauto.
Qed.

Lemma starts_with_app (p r : pystr) : starts_with p (p ++ r) = true.
Proof. apply starts_with_spec. eauto. Qed.

#[export] Hint Resolve starts_with_app : pystr.
#[export] Hint Rewrite starts_with_app : pyrw.

(** Only the first [length p] code points of the subject matter. *)
Lemma starts_with_app_long (p s r : pystr) :
  length p <= length s -> starts_with p (s ++ r) = starts_with p s.
Proof.
  revert s. induction p as [|c p IH]; intros [|d s] Hl; simpl in *; try (done || lia).
  rewrite IH by lia. done.
Qed.

Lemma starts_with_false (p s : pystr) :
  starts_with p s = false -> forall r, s <> p ++ r.
Proof. intros H r ->. by rewrite starts_with_app in H. Qed.

(** A character outside [p] cannot start an occurrence of [p] that starts
    with another character. *)
Lemma starts_with_cons_ne (c d : pychar) (p s : pystr) :
  c <> d -> starts_with (c :: p) (d :: s) = false.
Proof. intros Hne. simpl. destruct (N.eqb_spec c d); [congruence | done]. Qed.

Lemma not_elem_of_Forall {A} (P : A -> Prop) (x : A) (l : list A) :
  Forall P l -> ~ P x -> x ∉ l.
Proof. rewrite Forall_forall. intros H Hn Hin. by apply Hn, H. Qed.

Lemma rev_cons_app {A} (x : A) (l r : list A) : rev (x :: l) ++ r = rev l ++ x :: r.
Proof. simpl. by rewrite <- app_assoc. Qed.
#[export] Hint Rewrite @rev_cons_app : pyrw.
