(* ===== verification/PyStr.v ===== *)
(** * The Python [str] methods the program calls

    [str.isspace] (through [str.strip]), [str.strip], [str.join] and
    [str.replace], modelled on code points after CPython's
    [Objects/unicodeobject.c]: [do_strip], [PyUnicode_Join] and [replace].
    Each is called on one line of [src/resume_parser.py]: [strip] on line 80,
    ["\n".join] on line 71, [replace] on line 77. *)

From S2P Require Import Prelude.

Module PyStr.

(** [Py_UNICODE_ISSPACE]: the code points for which [str.isspace] holds
    (bidirectional class WS, B or S, or category Zs). *)
Definition isspace (c : pychar) : bool :=
  ((9 <=? c) && (c <=? 13))%N || ((28 <=? c) && (c <=? 32))%N
  || (c =? 133)%N || (c =? 160)%N || (c =? 5760)%N
  || ((8192 <=? c) && (c <=? 8202))%N
  || (c =? 8232)%N || (c =? 8233)%N || (c =? 8239)%N || (c =? 8287)%N
  || (c =? 12288)%N.

(** [do_strip] with [BOTHSTRIP]: advance [i] over leading white space,
    then move [j] back over trailing white space, and return [s[i:j]]. *)
Fixpoint lstrip (s : pystr) : pystr :=
  match s with
  | c :: t => if isspace c then lstrip t else s
  | [] => []
  end.

Definition rstrip (s : pystr) : pystr := rev (lstrip (rev s)).

Definition strip (s : pystr) : pystr := rstrip (lstrip s).

(** [sep.join(items)]: the items with [sep] between consecutive ones. *)
Fixpoint join (sep : pystr) (items : list pystr) : pystr :=
  match items with
  | [] => []
  | [x] => x
  | x :: rest => x ++ sep ++ join sep rest
  end.

(** [s.replace(old, new)] with the default [count = -1]. A non-empty [old]
    is searched left to right and occurrences do not overlap: after a
    match the scan resumes past it, which [skip] counts down. An empty
    [old] inserts [new] before every code point and at the end
    ([replace_interleave]). *)
Fixpoint replace_go (old new : pystr) (skip : nat) (s : pystr) : pystr :=
  match s with
  | [] => []
  | c :: t =>
      match skip with
      | S k => replace_go old new k t
      | O =>
          if starts_with old s
          then new ++ replace_go old new (pred (length old)) t
          else c :: replace_go old new 0 t
      end
  end.

Definition replace (old new s : pystr) : pystr :=
  match old with
  | [] => new ++ flat_map (fun c => c :: new) s
  | _ :: _ => replace_go old new 0 s
  end.

Definition all_space (s : pystr) : Prop := Forall (fun c => isspace c = true) s.

(** No occurrence of [old] starts at any of the first [n] positions. *)
Definition no_match_before (old : pystr) (n : nat) (s : pystr) : Prop :=
  forall k, k < n -> starts_with old (drop k s) = false.

Definition no_match_beforeb (old : pystr) (n : nat) (s : pystr) : bool :=
  forallb (fun k => negb (starts_with old (drop k s))) (seq 0 n).

(** ** Lemmas on [strip] *)

Lemma lstrip_spaces (ws s : pystr) : all_space ws -> lstrip (ws ++ s) = lstrip s.
Proof. induction 1 as [|c ws Hc _ IH]; simpl; [done|]. by rewrite Hc. Qed.

Lemma lstrip_decomp (s : pystr) :
  exists ws, s = ws ++ lstrip s /\ all_space ws.
Proof.
  induction s as [|c t (ws & Hws & Hsp)]; simpl.
  - exists []. split; [done | constructor].
  - destruct (isspace c) eqn:Hc.
    + exists (c :: ws). simpl. rewrite <- Hws. split; [done | by constructor].
    + exists []. split; [done | constructor].
Qed.

Lemma lstrip_length (s : pystr) : length (lstrip s) <= length s.
Proof.
  destruct (lstrip_decomp s) as (ws & Hws & _).
  rewrite Hws at 2. rewrite length_app. lia.
Qed.

Lemma lstrip_head (s : pystr) c t : lstrip s = c :: t -> isspace c = false.
Proof.
  induction s as [|d s IH]; simpl; [discriminate|].
  destruct (isspace d) eqn:Hd; [exact IH|]. by intros [= -> _].
Qed.

Lemma lstrip_idem (s : pystr) : lstrip (lstrip s) = lstrip s.
Proof.
  destruct (lstrip s) as [|c t] eqn:E; [done|].
  simpl. by rewrite (lstrip_head s c t E).
Qed.

Lemma lstrip_fixed (s : pystr) :
  lstrip s = s <-> (forall c t, s = c :: t -> isspace c = false).
Proof.
  split.
  - intros H c t ->. by apply (lstrip_head (c :: t) c t).
  - destruct s as [|c t]; [done|]. intros H. simpl. by rewrite (H c t eq_refl).
Qed.

Lemma rstrip_spaces (s ws : pystr) : all_space ws -> rstrip (s ++ ws) = rstrip s.
Proof.
  intros Hws. unfold rstrip. rewrite rev_app_distr, lstrip_spaces; [done|].
  by apply Forall_rev.
Qed.

Lemma rstrip_decomp (s : pystr) :
  exists ws, s = rstrip s ++ ws /\ all_space ws.
Proof.
  destruct (lstrip_decomp (rev s)) as (ws & Hws & Hsp).
  exists (rev ws). unfold rstrip. split; [| by apply Forall_rev].
  rewrite <- rev_app_distr, <- Hws. by rewrite rev_involutive.
Qed.

Lemma rstrip_length (s : pystr) : length (rstrip s) <= length s.
Proof.
  unfold rstrip. rewrite length_rev. rewrite <- (length_rev s).
  apply lstrip_length.
Qed.

Lemma strip_length (s : pystr) : length (strip s) <= length s.
Proof. pose proof (lstrip_length s). pose proof (rstrip_length (lstrip s)). unfold strip. lia. Qed.

Lemma strip_decomp (s : pystr) :
  exists a b, s = a ++ strip s ++ b /\ all_space a /\ all_space b.
Proof.
  destruct (lstrip_decomp s) as (a & Ha & Hsa).
  destruct (rstrip_decomp (lstrip s)) as (b & Hb & Hsb).
  exists a, b. unfold strip. rewrite <- Hb. auto.
Qed.

(** A string that [strip] leaves alone has no white space at either end. *)
Lemma strip_fixed (m : pystr) :
  strip m = m -> lstrip m = m /\ rstrip m = m.
Proof.
  intros H.
  assert (Hl : lstrip m = m).
  { destruct (lstrip_decomp m) as ([|w ws] & Hws & _); [done|].
    pose proof (rstrip_length (lstrip m)) as L1.
    assert (L2 : length m = S (length ws) + length (lstrip m))
      by (rewrite Hws at 1; simpl; rewrite length_app; lia).
    unfold strip in H. rewrite H in L1. lia. }
  split; [done|]. unfold strip in H. by rewrite Hl in H.
Qed.

Lemma lstrip_all_space (ws : pystr) : all_space ws -> lstrip ws = [].
Proof. intros H. rewrite <- (app_nil_r ws). by rewrite lstrip_spaces. Qed.

Lemma rstrip_idem (s : pystr) : rstrip (rstrip s) = rstrip s.
Proof. unfold rstrip. by rewrite rev_involutive, lstrip_idem. Qed.

(** [rstrip] keeps a first code point that is not white space. *)
Lemma rstrip_keeps_head (c : pychar) (t : pystr) :
  isspace c = false -> exists t', rstrip (c :: t) = c :: t'.
Proof.
  intros Hc. destruct (rstrip_decomp (c :: t)) as (ws & Hws & Hsp).
  destruct (rstrip (c :: t)) as [|d t'] eqn:E.
  - simpl in Hws. rewrite <- Hws in Hsp. inversion Hsp. congruence.
  - simpl in Hws. injection Hws as -> _. eauto.
Qed.

Lemma lstrip_rstrip_lstrip (s : pystr) : lstrip (rstrip (lstrip s)) = rstrip (lstrip s).
Proof.
  destruct (lstrip s) as [|c t] eqn:E; [done|].
  destruct (rstrip_keeps_head c t (lstrip_head s c t E)) as (t' & ->).
  simpl. by rewrite (lstrip_head s c t E).
Qed.

#[local] Hint Resolve lstrip_all_space : pystr.

(** C30: [strip] removes exactly the white space around a string that has none
    at its ends: [(a + m + b).strip() == m]. *)
Lemma strip_frame (a m b : pystr) :
  all_space a -> all_space b -> strip m = m -> strip (a ++ m ++ b) = m.
Proof.
  intros Ha Hb Hm. destruct (strip_fixed m Hm) as [Hl Hr].
  unfold strip. rewrite lstrip_spaces by done.
  destruct m as [|c t].
  - simpl. by rewrite lstrip_all_space.
  - assert (Hc : isspace c = false) by exact (lstrip_head (c :: t) c t Hl).
    simpl. rewrite Hc, app_comm_cons, rstrip_spaces by done. exact Hr.
Qed.

(** [strip] is idempotent: [s.strip().strip() == s.strip()]. *)
Lemma strip_idem (s : pystr) : strip (strip s) = strip s.
Proof. unfold strip. rewrite lstrip_rstrip_lstrip. apply rstrip_idem. Qed.

Lemma lstrip_nil (s : pystr) : lstrip s = [] -> all_space s.
Proof.
  intros H. destruct (lstrip_decomp s) as (ws & Hws & Hsp).
  rewrite H, app_nil_r in Hws. by subst.
Qed.

Lemma lstrip_app (s b : pystr) : lstrip s <> [] -> lstrip (s ++ b) = lstrip s ++ b.
Proof.
  induction s as [|c s IH]; simpl; [done|].
  destruct (isspace c); [exact IH | done].
Qed.

(** White space around a string does not change its [strip]. *)
Lemma strip_around (a s b : pystr) :
  all_space a -> all_space b -> strip (a ++ s ++ b) = strip s.
Proof.
  intros Ha Hb. unfold strip. rewrite lstrip_spaces by done.
  destruct (lstrip s) as [|c t] eqn:E.
  - rewrite lstrip_spaces by by apply lstrip_nil. by rewrite lstrip_all_space.
  - rewrite lstrip_app by (rewrite E; discriminate). rewrite E.
    by apply rstrip_spaces.
Qed.

(** A string with no white space at either end is left alone. *)
Lemma strip_nonspace_ends (m : pystr) :
  (forall c t, m = c :: t -> isspace c = false) ->
  (forall c t, rev m = c :: t -> isspace c = false) ->
  strip m = m.
Proof.
  intros Hl Hr. unfold strip, rstrip.
  rewrite (proj2 (lstrip_fixed m) Hl), (proj2 (lstrip_fixed (rev m)) Hr).
  apply rev_involutive.
Qed.

(** ** Lemmas on [join] *)

(** The length of [sep.join(items)] is the sum of the lengths of the
    items plus one separator between each two. *)
Lemma length_join (sep : pystr) (items : list pystr) :
  length (join sep items) =
  sum_list (map length items) + (length items - 1) * length sep.
Proof.
  induction items as [|x [|y rest] IH]; simpl; [done | lia |].
  simpl in IH. rewrite !length_app, IH. lia.
Qed.

(** ** Lemmas on [replace] *)

Lemma no_match_beforeb_spec (old : pystr) (n : nat) (s : pystr) :
  no_match_beforeb old n s = true -> no_match_before old n s.
Proof.
  unfold no_match_beforeb. intros H k Hk.
  rewrite forallb_forall in H. apply negb_true_iff, H, in_seq. lia.
Qed.

Lemma replace_go_skip (old new x b : pystr) :
  replace_go old new (length x) (x ++ b) = replace_go old new 0 b.
Proof. induction x as [|c x IH]; [done|]. exact IH. Qed.

Lemma replace_go_prefix (old new a r : pystr) :
  no_match_before old (length a) (a ++ r) ->
  replace_go old new 0 (a ++ r) = a ++ replace_go old new 0 r.
Proof.
  induction a as [|c a IH]; intros H; [done|].
  pose proof (H 0 ltac:(simpl; lia)) as H0. simpl in H0 |- *. rewrite H0.
  f_equal. apply IH. intros k Hk. apply (H (S k)). simpl. lia.
Qed.

Lemma replace_go_none (old new b : pystr) :
  no_match_before old (length b) b -> replace_go old new 0 b = b.
Proof.
  intros H. pose proof (replace_go_prefix old new b [] ltac:(by rewrite app_nil_r)) as E.
  rewrite app_nil_r in E. rewrite E. simpl. apply app_nil_r.
Qed.

Lemma replace_cons (o : pychar) (old new s : pystr) :
  replace (o :: old) new s = replace_go (o :: old) new 0 s.
Proof. reflexivity. Qed.

Lemma join_cons_app (sep x q : pystr) (ps : list pystr) :
  join sep (x :: ps ++ [q]) = x ++ sep ++ join sep (ps ++ [q]).
Proof. by destruct ps. Qed.

(** Whether [old] starts at position [k < length p] of [p ++ old ++ r]
    only depends on [p ++ old]. *)
Lemma no_match_before_app (old p r : pystr) :
  no_match_before old (length p) (p ++ old) ->
  no_match_before old (length p) (p ++ old ++ r).
Proof.
  intros H k Hk. rewrite app_assoc, drop_app_le by (rewrite length_app; lia).
  rewrite <- (H k Hk). apply starts_with_app_long.
  rewrite length_drop, length_app. lia.
Qed.

(** One occurrence of [old], after a prefix [a] that holds none: the
    prefix is copied, [new] is inserted, and the scan goes on after the
    occurrence. *)
Lemma replace_go_step (old new a r : pystr) :
  old <> [] ->
  no_match_before old (length a) (a ++ old ++ r) ->
  replace_go old new 0 (a ++ old ++ r) = a ++ new ++ replace_go old new 0 r.
Proof.
  intros Hne Ha. destruct old as [|o old']; [done|].
  rewrite replace_go_prefix by exact Ha. f_equal.
  simpl. rewrite N.eqb_refl, starts_with_app. simpl.
  rewrite replace_go_skip. done.
Qed.

(** C31: [str.replace] replaces every occurrence, left to right, without
    overlap: when [s == old.join(pieces)] and no occurrence of [old] starts
    inside a piece (before the separator that follows it, or anywhere in
    the last piece), [s.replace(old, new) == new.join(pieces)]. *)
Theorem replace_join (old new q : pystr) (ps : list pystr) :
  old <> [] ->
  Forall (fun p => no_match_before old (length p) (p ++ old)) ps ->
  no_match_before old (length q) q ->
  replace old new (join old (ps ++ [q])) = join new (ps ++ [q]).
Proof.
  intros Hne Hps Hq. destruct old as [|o old']; [done|]. unfold replace.
  induction Hps as [|p ps Hp _ IH]; [by apply replace_go_none|].
  rewrite <- !app_comm_cons, !join_cons_app, replace_go_step, IH; [done..|].
  by apply no_match_before_app.
Qed.

(** An empty [old] inserts [new] before every code point and at the
    end: ['abc'.replace('', '-') == '-a-b-c-']. *)
Example replace_empty_old : replace [] «"-"» «"abc"» = «"-a-b-c-"».
Proof. reflexivity. Qed.

(** ** Witnesses *)

Lemma replace_join_witness :
  replace «", "» «";"» (join «", "» ([«"a"»; «"b,"»] ++ [«"c"»])) =
    join «";"» ([«"a"»; «"b,"»] ++ [«"c"»]).
Proof.
  apply replace_join; [discriminate | |apply no_match_beforeb_spec; reflexivity].
  repeat constructor; apply no_match_beforeb_spec; reflexivity.
Defined.

Lemma strip_frame_witness : strip ([32%N; NL] ++ «"a b"» ++ [9%N]) = «"a b"».
Proof. apply strip_frame; [decide_eval | decide_eval | reflexivity]. Defined.

End PyStr.
