(* ===== verification/Regex.v ===== *)
(** * The fragment of Python's [re] module that line 80 uses

    A backtracking matcher for the regular expressions built from
    literals, concatenation, alternation, the greedy [?] and the anchors
    [^] and [$] under [re.MULTILINE], following CPython's [sre]
    ([Modules/_sre/sre_lib.h]): [SRE(match)] tries the branches of an
    alternation in order and the first success wins; [SRE(search)] tries
    the start positions from left to right; [pattern_subx] is [re.sub].

    A position in the subject is a [cursor]: the code points already
    passed (reversed, so that [^] looks at the previous one) and the ones
    still ahead. *)

From S2P Require Import Prelude.

Module Regex.

Inductive regex :=
  | Empty                       (** the empty pattern *)
  | Lit (c : pychar)            (** [LITERAL c] *)
  | Seq (r1 r2 : regex)         (** concatenation *)
  | Alt (r1 r2 : regex)         (** [BRANCH]: [r1|r2], [r1] tried first *)
  | Opt (r : regex)             (** [(?:r)?]: greedy, one try then none *)
  | BolM                        (** [^] with [MULTILINE]: [AT_BEGINNING_LINE] *)
  | EolM.                       (** [$] with [MULTILINE]: [AT_END_LINE] *)

(** A literal string as a pattern. *)
Fixpoint lits (s : pystr) : regex :=
  match s with
  | [] => Empty
  | c :: t => Seq (Lit c) (lits t)
  end.

Record cursor := Cursor { before : pystr; after : pystr }.

(** [ptr == state->beginning || SRE_IS_LINEBREAK(ptr[-1])] *)
Definition at_bol (c : cursor) : bool :=
  match before c with [] => true | x :: _ => N.eqb x NL end.

(** [ptr == state->end || SRE_IS_LINEBREAK(ptr[0])] *)
Definition at_eol (c : cursor) : bool :=
  match after c with [] => true | x :: _ => N.eqb x NL end.

(** [matches r c k]: match [r] at [c], then run the continuation [k] on
    the end position; backtrack into the alternatives of [r] when [k]
    fails. The result is the end of the whole match. *)
Fixpoint matches (r : regex) (c : cursor) (k : cursor -> option cursor)
    : option cursor :=
  match r with
  | Empty => k c
  | Lit x =>
      match after c with
      | y :: t => if N.eqb x y then k (Cursor (y :: before c) t) else None
      | [] => None
      end
  | Seq r1 r2 => matches r1 c (fun c' => matches r2 c' k)
  | Alt r1 r2 =>
      match matches r1 c k with
      | Some e => Some e
      | None => matches r2 c k
      end
  | Opt r1 =>
      match matches r1 c k with
      | Some e => Some e
      | None => k c
      end
  | BolM => if at_bol c then k c else None
  | EolM => if at_eol c then k c else None
  end.

(** The toplevel [SUCCESS] of [SRE(match)]: with [must_advance] set, a
    match that ends where it started is refused. *)
Definition accept (ma : bool) (start e : cursor) : option cursor :=
  if ma && (length (after e) =? length (after start)) then None else Some e.

(** [SRE(search)]: the first position where [r] matches, with the
    code points passed over on the way; [must_advance] only applies at
    the first position tried. *)
Fixpoint search (r : regex) (ma : bool) (bf af : pystr)
    : option (pystr * cursor * cursor) :=
  match matches r (Cursor bf af) (accept ma (Cursor bf af)) with
  | Some e => Some ([], Cursor bf af, e)
  | None =>
      match af with
      | [] => None
      | x :: af' =>
          match search r false (x :: bf) af' with
          | Some (seg, b, e) => Some (x :: seg, b, e)
          | None => None
          end
      end
  end.

(** [pattern_subx] with a literal replacement and [count = 0]: copy the
    segment before each match, then the replacement, and resume at the
    end of the match, with [must_advance] set after an empty match. *)
Fixpoint sub_loop (fuel : nat) (r : regex) (repl : pystr) (ma : bool) (c : cursor)
    : option pystr :=
  match fuel with
  | O => None
  | S f =>
      match search r ma (before c) (after c) with
      | None => Some (after c)
      | Some (seg, b, e) =>
          match sub_loop f r repl (length (after e) =? length (after b)) e with
          | Some out => Some (seg ++ repl ++ out)
          | None => None
          end
      end
  end.

(** Each round consumes a code point or turns [must_advance] on, so
    [2 * len + 2] rounds are enough (theorem [sub_loop_total]). *)
Definition sub_fuel (s : pystr) : nat := 2 * length s + 2.

(** [re.sub(r, repl, s)] *)
Definition re_sub (r : regex) (repl s : pystr) : pystr :=
  match sub_loop (sub_fuel s) r repl false (Cursor [] s) with
  | Some out => out
  | None => s
  end.

(** The left-to-right scan that [re.sub] performs when [r] cannot match
    the empty string: at each position, replace the match found there and
    skip past it, or copy the code point. *)
Fixpoint scan (r : regex) (repl : pystr) (skip : nat) (bf af : pystr) : pystr :=
  match af with
  | [] => []
  | x :: af' =>
      match skip with
      | S k => scan r repl k (x :: bf) af'
      | O =>
          match matches r (Cursor bf af) Some with
          | Some e => repl ++ scan r repl (pred (length af - length (after e))) (x :: bf) af'
          | None => x :: scan r repl 0 (x :: bf) af'
          end
      end
  end.

(** [r] can match the empty string somewhere. *)
Fixpoint nullable (r : regex) : bool :=
  match r with
  | Empty | Opt _ | BolM | EolM => true
  | Lit _ => false
  | Seq r1 r2 => nullable r1 && nullable r2
  | Alt r1 r2 => nullable r1 || nullable r2
  end.

(** ** What a pattern denotes

    The declarative reading of a pattern: [in_re r c c'] when [r] matches
    the code points from [c] to [c']. [matches] refines it: what it
    returns is a match ([matches_sound]), and it returns one whenever one
    exists ([matches_complete]); the order in which it tries them is
    [sre]'s. *)
Inductive in_re : regex -> cursor -> cursor -> Prop :=
  | in_empty c : in_re Empty c c
  | in_lit x bf af : in_re (Lit x) (Cursor bf (x :: af)) (Cursor (x :: bf) af)
  | in_seq r1 r2 c1 c2 c3 : in_re r1 c1 c2 -> in_re r2 c2 c3 -> in_re (Seq r1 r2) c1 c3
  | in_alt_l r1 r2 c c' : in_re r1 c c' -> in_re (Alt r1 r2) c c'
  | in_alt_r r1 r2 c c' : in_re r2 c c' -> in_re (Alt r1 r2) c c'
  | in_opt_some r c c' : in_re r c c' -> in_re (Opt r) c c'
  | in_opt_none r c : in_re (Opt r) c c
  | in_bol c : at_bol c = true -> in_re BolM c c
  | in_eol c : at_eol c = true -> in_re EolM c c.

(** ** Positions reached by a match *)

(** [c'] lies [u] code points ahead of [c]. *)
Definition ahead (c : cursor) (u : pystr) (c' : cursor) : Prop :=
  after c = u ++ after c' /\ before c' = rev u ++ before c.

(** The quantity each round of [sub_loop] decreases. *)
Definition measure (c : cursor) (ma : bool) : nat :=
  2 * length (after c) + (if ma then 0 else 1).

(** [r] matches from [p] to [e], and the match is accepted under the
    [must_advance] flag [ma] (not empty when [ma] is set). *)
Definition match_at (r : regex) (ma : bool) (p e : cursor) : Prop :=
  in_re r p e /\ (ma = true -> length (after e) <> length (after p)).

(** The [must_advance] flag [search] applies at the position [u] code
    points after its start: only the first position tried has it. *)
Definition ma_at (ma : bool) (u : pystr) : bool :=
  match u with [] => ma | _ :: _ => false end.

Lemma ahead_refl (c : cursor) : ahead c [] c.
Proof. done. Qed.

Lemma ahead_trans (c1 c2 c3 : cursor) (u v : pystr) :
  ahead c1 u c2 -> ahead c2 v c3 -> ahead c1 (u ++ v) c3.
Proof.
  intros [H1 H2] [H3 H4]. split.
  - by rewrite H1, H3, app_assoc.
  - by rewrite H4, H2, rev_app_distr, app_assoc.
Qed.

Lemma ahead_length (c c' : cursor) (u : pystr) :
  ahead c u c' -> length (after c) = length u + length (after c').
Proof. intros [H _]. by rewrite H, length_app. Qed.

#[export] Hint Resolve ahead_refl ahead_trans : pystr.

(** Closes the side goals of [matches_inv] at a position reached
    without consuming anything. *)
Local Ltac here :=
  split; [first [apply ahead_refl | done | split; simpl; congruence]
         | split; [simpl; intros ? ?; discriminate | done]].

(** The continuation only runs at positions ahead of the start, at least
    one code point ahead when [r] is not nullable. *)
Lemma matches_inv (r : regex) (c : cursor) (k : cursor -> option cursor) (x : cursor) :
  matches r c k = Some x ->
  exists u c', ahead c u c' /\ (nullable r = false -> u <> []) /\ k c' = Some x.
Proof.
  revert c k. induction r as [| y | r1 IH1 r2 IH2 | r1 IH1 r2 IH2 | r1 IH1 | |];
    intros c k H; simpl in H.
  - exists [], c. here.
  - destruct (after c) as [|z t] eqn:Ha; [discriminate|].
    destruct (N.eqb_spec y z); [subst|discriminate].
    exists [z], (Cursor (z :: before c) t). here.
  - apply IH1 in H as (u1 & c1 & A1 & N1 & H1).
    apply IH2 in H1 as (u2 & c2 & A2 & N2 & H2).
    exists (u1 ++ u2), c2. split; [eauto with pystr|]. split; [|done].
    simpl. intros [Hn | Hn]%andb_false_iff [-> ->]%app_eq_nil; naive_solver.
  - destruct (matches r1 c k) eqn:E1.
    + injection H as ->. apply IH1 in E1 as (u & c' & A & N & Hk).
      exists u, c'. split; [done|]. split; [|done].
      simpl. intros [? ?]%orb_false_iff; auto.
    + apply IH2 in H as (u & c' & A & N & Hk).
      exists u, c'. split; [done|]. split; [|done].
      simpl. intros [? ?]%orb_false_iff; auto.
  - destruct (matches r1 c k) eqn:E1.
    + injection H as ->. apply IH1 in E1 as (u & c' & A & _ & Hk).
      exists u, c'. here.
    + exists [], c. here.
  - destruct (at_bol c); [|discriminate]. exists [], c. here.
  - destruct (at_eol c); [|discriminate]. exists [], c. here.
Qed.

(** [matches] only looks at its continuation on the positions of
    [matches_inv]. *)
Lemma matches_ext (r : regex) (c : cursor) (k1 k2 : cursor -> option cursor) :
  (forall u c', ahead c u c' -> (nullable r = false -> u <> []) -> k1 c' = k2 c') ->
  matches r c k1 = matches r c k2.
Proof.
  revert c k1 k2. induction r as [| y | r1 IH1 r2 IH2 | r1 IH1 r2 IH2 | r1 IH1 | |];
    intros c k1 k2 H; simpl.
  - apply (H [] c); [apply ahead_refl | discriminate].
  - destruct (after c) as [|z t] eqn:Ha; [done|].
    destruct (N.eqb y z); [|done].
    apply (H [z]); [split; simpl; congruence | intros _; discriminate].
  - apply IH1. intros u1 c1 A1 N1. apply IH2. intros u2 c2 A2 N2.
    apply (H (u1 ++ u2)); [eauto with pystr|].
    simpl. intros [Hn | Hn]%andb_false_iff [-> ->]%app_eq_nil; naive_solver.
  - rewrite (IH1 c k1 k2), (IH2 c k1 k2); [done | |];
      intros u c' A N; (apply (H u); [done|]);
      simpl; intros [? ?]%orb_false_iff; auto.
  - assert (E : k1 c = k2 c) by (apply (H [] c); [apply ahead_refl | discriminate]).
    rewrite E, (IH1 c k1 k2); [done|].
    intros u c' A _. apply (H u); [done | discriminate].
  - destruct (at_bol c); [|done]. apply (H [] c); [apply ahead_refl | discriminate].
  - destruct (at_eol c); [|done]. apply (H [] c); [apply ahead_refl | discriminate].
Qed.

(** ** [matches] refines [in_re] *)

Lemma matches_in_re (r : regex) (c : cursor) (k : cursor -> option cursor) (x : cursor) :
  matches r c k = Some x -> exists c', in_re r c c' /\ k c' = Some x.
Proof.
  revert c k. induction r as [| y | r1 IH1 r2 IH2 | r1 IH1 r2 IH2 | r1 IH1 | |];
    intros c k H; simpl in H.
  - eauto using in_re.
  - destruct c as [bf [|z af]]; simpl in H; [discriminate|].
    destruct (N.eqb_spec y z); [subst; eauto using in_re | discriminate].
  - apply IH1 in H as (c1 & H1 & H2). apply IH2 in H2 as (c2 & H3 & H4).
    eauto using in_re.
  - destruct (matches r1 c k) eqn:E; [injection H as ->|].
    + apply IH1 in E as (c' & ? & ?). eauto using in_re.
    + apply IH2 in H as (c' & ? & ?). eauto using in_re.
  - destruct (matches r1 c k) eqn:E; [injection H as ->|].
    + apply IH1 in E as (c' & ? & ?). eauto using in_re.
    + eauto using in_re.
  - destruct (at_bol c) eqn:E; [eauto using in_re | discriminate].
  - destruct (at_eol c) eqn:E; [eauto using in_re | discriminate].
Qed.

Lemma in_re_matches (r : regex) (c c' : cursor) (k : cursor -> option cursor) (x : cursor) :
  in_re r c c' -> k c' = Some x -> exists y, matches r c k = Some y.
Proof.
  intros Hr. revert k x.
  induction Hr as [c|x' bf af|r1 r2 c1 c2 c3 H1 IH1 H2 IH2|r1 r2 c c' H IH|r1 r2 c c' H IH
                  |r c c' H IH|r c|c Hb|c He]; intros k x Hk; simpl.
  - eauto.
  - rewrite N.eqb_refl. eauto.
  - destruct (IH2 k x Hk) as [y Hy]. exact (IH1 _ y Hy).
  - destruct (IH k x Hk) as [y ->]. eauto.
  - destruct (matches r1 c k); [eauto | exact (IH k x Hk)].
  - destruct (IH k x Hk) as [y ->]. eauto.
  - destruct (matches r c k); eauto.
  - rewrite Hb. eauto.
  - rewrite He. eauto.
Qed.

(** C15: every end position [matches] hands to its continuation is the end
    of a match of [r]. *)
Theorem matches_sound (r : regex) (c : cursor) (k : cursor -> option cursor) (x : cursor) :
  matches r c k = Some x -> exists c', in_re r c c' /\ k c' = Some x.
Proof. apply matches_in_re. Qed.

(** C16: when [r] matches from [c] to some [c'] that the continuation
    accepts, the backtracking matcher finds a match (maybe another one). *)
Theorem matches_complete (r : regex) (c c' : cursor) (k : cursor -> option cursor) (x : cursor) :
  in_re r c c' -> k c' = Some x -> exists y, matches r c k = Some y.
Proof. apply in_re_matches. Qed.

(** ** [search] *)

Lemma accept_inv (ma : bool) (st e x : cursor) :
  accept ma st e = Some x ->
  x = e /\ (ma = true -> length (after e) <> length (after st)).
Proof.
  unfold accept. destruct ma; simpl; [|by intros [= ->]].
  destruct (Nat.eqb_spec (length (after e)) (length (after st))); by intros [= ->].
Qed.

(** A match found by [search] starts [seg] code points ahead, ends [u]
    further on, and is not empty when [must_advance] held at its start. *)
Lemma search_inv (r : regex) (ma : bool) (bf af seg : pystr) (b e : cursor) :
  search r ma bf af = Some (seg, b, e) ->
  ahead (Cursor bf af) seg b /\
  exists u, ahead b u e /\ (ma = true -> seg = [] -> u <> []).
Proof.
  revert bf ma seg b e. induction af as [|x af IH]; intros bf ma seg b e H; simpl in H;
    destruct (matches r (Cursor bf _) _) as [e'|] eqn:Hm.
  1, 3: injection H as <- <- <-;
    apply matches_inv in Hm as (u & c' & A & _ & (-> & Hma)%accept_inv);
    split; [apply ahead_refl|]; exists u; split; [done|];
    intros Hma' _ ->; apply (Hma Hma'); by rewrite (ahead_length _ _ _ A).
  - discriminate.
  - destruct (search r false (x :: bf) af) as [[[seg' b'] e'']|] eqn:Hs; [|discriminate].
    injection H as <- <- <-. apply IH in Hs as ([A1 A2] & u & A & _).
    split; [split; simpl in *; [by rewrite A1 | by rewrite A2, <- app_assoc]|].
    exists u. split; [done | discriminate].
Qed.

(** ** Literal runs *)

Lemma matches_lits_app (p : pystr) (bf r : pystr) (k : cursor -> option cursor) :
  matches (lits p) (Cursor bf (p ++ r)) k = k (Cursor (rev p ++ bf) r).
Proof.
  revert bf. induction p as [|c p IH]; intros bf; [done|]. cbn.
  rewrite N.eqb_refl, IH. by rewrite <- app_assoc.
Qed.

Lemma matches_lits_none (p : pystr) (bf af : pystr) (k : cursor -> option cursor) :
  starts_with p af = false -> matches (lits p) (Cursor bf af) k = None.
Proof.
  revert bf af. induction p as [|c p IH]; intros bf [|d af] H; try done. cbn in H |- *.
  destruct (N.eqb_spec c d); [subst; by apply IH | done].
Qed.

(** ** [search] finds the leftmost match *)

Lemma accept_some (ma : bool) (st e : cursor) :
  (ma = true -> length (after e) <> length (after st)) -> accept ma st e = Some e.
Proof.
  unfold accept. destruct ma; simpl; [|done]. intros H.
  destruct (Nat.eqb_spec (length (after e)) (length (after st))); [by destruct H | done].
Qed.

Lemma no_match_at (r : regex) (ma : bool) (p e : cursor) :
  matches r p (accept ma p) = None -> ~ match_at r ma p e.
Proof.
  intros Hm [Hr Ha].
  destruct (in_re_matches r p e (accept ma p) e Hr (accept_some ma p e Ha)) as [y Hy].
  congruence.
Qed.

Lemma matches_accept_at (r : regex) (ma : bool) (p e : cursor) :
  matches r p (accept ma p) = Some e -> match_at r ma p e.
Proof. intros (c' & Hr & (-> & Ha)%accept_inv)%matches_in_re. by split. Qed.

Lemma ahead_nil_inv (c p : cursor) : ahead c [] p -> p = c.
Proof. destruct c, p. intros [H1 H2]. simpl in *. by subst. Qed.

Lemma ahead_cons (bf af u : pystr) (x y : pychar) (p : cursor) :
  ahead (Cursor bf (x :: af)) (y :: u) p -> y = x /\ ahead (Cursor (x :: bf) af) u p.
Proof.
  intros [H1 H2]. simpl in *. injection H1 as -> H1.
  split; [done|]. split; [done|]. rewrite H2. simpl. by rewrite <- app_assoc.
Qed.

Lemma ma_at_false (u : pystr) : ma_at false u = false.
Proof. by destruct u. Qed.

(** C17: [search] ([SRE(search)]) returns the leftmost accepted match: the
    start [b] lies [seg] code points ahead, [r] matches from [b] to [e]
    (not emptily when [must_advance] held there), and no position before
    [b] has an accepted match. *)
Theorem search_leftmost (r : regex) (ma : bool) (bf af seg : pystr) (b e : cursor) :
  search r ma bf af = Some (seg, b, e) ->
  ahead (Cursor bf af) seg b /\ match_at r (ma_at ma seg) b e /\
  forall u p e', ahead (Cursor bf af) u p -> length u < length seg ->
    ~ match_at r (ma_at ma u) p e'.
Proof.
  revert bf ma seg b e. induction af as [|x af IH]; intros bf ma seg b e H; simpl in H;
    destruct (matches r (Cursor bf _) _) as [e'|] eqn:Hm.
  1, 3: injection H as <- <- <-; split; [apply ahead_refl|];
    split; [by apply matches_accept_at | intros u p e'' _ Hl; simpl in Hl; lia].
  - discriminate.
  - destruct (search r false (x :: bf) af) as [[[seg' b'] e'']|] eqn:Hs; [|discriminate].
    injection H as <- <- <-. apply IH in Hs as (A & Hb & Hl).
    split; [exact (ahead_trans (Cursor bf (x :: af)) (Cursor (x :: bf) af) _ [x] seg'
                     (conj eq_refl eq_refl) A)|].
    split; [by rewrite ma_at_false in Hb|].
    intros [|y u] p e0 Ha Hlen.
    + apply ahead_nil_inv in Ha as ->. by apply no_match_at.
    + apply ahead_cons in Ha as [-> Ha]. cbn [ma_at]. rewrite <- (ma_at_false u).
      apply (Hl u p e0 Ha). simpl in Hlen. lia.
Qed.

(** C18: when [search] finds nothing, no position of the subject has an
    accepted match. *)
Theorem search_none (r : regex) (ma : bool) (bf af : pystr) :
  search r ma bf af = None ->
  forall u p e, ahead (Cursor bf af) u p -> ~ match_at r (ma_at ma u) p e.
Proof.
  revert bf ma. induction af as [|x af IH]; intros bf ma H; simpl in H;
    destruct (matches r (Cursor bf _) _) as [e'|] eqn:Hm; try discriminate;
    intros [|y u] p e0 Ha.
  - apply ahead_nil_inv in Ha as ->. by apply no_match_at.
  - destruct Ha as [Ha _]. discriminate.
  - apply ahead_nil_inv in Ha as ->. by apply no_match_at.
  - destruct (search r false (x :: bf) af) as [[[seg' b'] e'']|] eqn:Hs; [discriminate|].
    apply ahead_cons in Ha as [-> Ha]. cbn [ma_at]. rewrite <- (ma_at_false u). exact (IH _ _ Hs u p e0 Ha).
Qed.

(** ** Termination of [re.sub] *)

Lemma sub_loop_some (fuel : nat) (r : regex) (repl : pystr) (ma : bool) (c : cursor) :
  measure c ma < fuel -> exists out, sub_loop fuel r repl ma c = Some out.
Proof.
  revert ma c. induction fuel as [|f IH]; intros ma c Hf; [lia|]. simpl.
  destruct (search r ma (before c) (after c)) as [[[seg b] e]|] eqn:Hs; [|eauto].
  apply search_inv in Hs as (A1%ahead_length & u & A2 & Hne).
  pose proof (ahead_length _ _ _ A2) as L2.
  destruct (IH (length (after e) =? length (after b)) e) as [out ->]; [|eauto].
  unfold measure in *. simpl in A1.
  destruct (Nat.eqb_spec (length (after e)) (length (after b))),
    ma, seg, u; simpl in *; try lia.
  all: exfalso; by apply Hne.
Qed.

(** C13: [re.sub] always returns: the fuel [sub_fuel] is never exhausted. *)
Theorem sub_loop_total (r : regex) (repl s : pystr) :
  sub_loop (sub_fuel s) r repl false (Cursor [] s) = Some (re_sub r repl s).
Proof.
  unfold re_sub.
  destruct (sub_loop_some (sub_fuel s) r repl false (Cursor [] s)) as [out ->];
    [unfold measure, sub_fuel; simpl; lia | done].
Qed.

(** ** [re.sub] on a pattern that never matches the empty string *)

Section NonNullable.

Variable r : regex.
Hypothesis r_nonnull : nullable r = false.

Lemma accept_nonnull (ma : bool) (c : cursor) :
  matches r c (accept ma c) = matches r c Some.
Proof.
  apply matches_ext. intros u c' A Hu.
  pose proof (ahead_length _ _ _ A). specialize (Hu r_nonnull).
  unfold accept. destruct ma; [|done]. simpl.
  destruct (Nat.eqb_spec (length (after c')) (length (after c))); [|done].
  destruct u; [done | simpl in *; lia].
Qed.

Lemma scan_skip (repl u bf af : pystr) :
  scan r repl (length u) bf (u ++ af) = scan r repl 0 (rev u ++ bf) af.
Proof.
  revert bf. induction u as [|x u IH]; intros bf; [done|]. simpl.
  rewrite IH. by rewrite <- app_assoc.
Qed.

Lemma sub_loop_skip_char (f : nat) (repl : pystr) (ma : bool) (x : pychar) (bf af : pystr) :
  matches r (Cursor bf (x :: af)) Some = None ->
  sub_loop (S f) r repl ma (Cursor bf (x :: af)) =
  option_map (cons x) (sub_loop (S f) r repl false (Cursor (x :: bf) af)).
Proof.
  intros Hm. simpl. rewrite accept_nonnull, Hm.
  destruct (search r false (x :: bf) af) as [[[seg b] e]|]; [|done].
  by destruct (sub_loop f r repl _ e).
Qed.

Lemma sub_loop_scan (repl : pystr) (n : nat) :
  forall af bf fuel ma, length af < n -> measure (Cursor bf af) ma < fuel ->
  sub_loop fuel r repl ma (Cursor bf af) = Some (scan r repl 0 bf af).
Proof.
  induction n as [|n IH]; intros af bf fuel ma Hn Hf; [lia|].
  destruct fuel as [|f]; [lia|].
  destruct (matches r (Cursor bf af) Some) as [e|] eqn:Hm.
  - pose proof Hm as (u & e' & A & Hu & [= ->])%matches_inv.
    specialize (Hu r_nonnull). destruct u as [|x u]; [done|].
    destruct e as [be ae]. destruct A as [A1 A2]. simpl in A1, A2. subst af be.
    simpl in Hm |- *. rewrite accept_nonnull, Hm.
    rewrite (IH ae); [| simpl in Hn; rewrite ?length_app in Hn; lia |
                       unfold measure in *; simpl in *; rewrite ?length_app in Hf;
                       destruct ma, (_ =? _); lia].
    replace (Init.Nat.pred _) with (length u) by (simpl; rewrite length_app; lia).
    rewrite scan_skip. by rewrite <- app_assoc.
  - destruct af as [|x af].
    + simpl. by rewrite accept_nonnull, Hm.
    + rewrite sub_loop_skip_char by exact Hm.
      rewrite IH; [| simpl in Hn; lia | unfold measure in *; simpl in *; destruct ma; lia].
      simpl. by rewrite Hm.
Qed.

(** C12: For a pattern that cannot match the empty string, [re.sub] is the
    scan that replaces each leftmost match and resumes after it. *)
Theorem re_sub_scan (repl s : pystr) : re_sub r repl s = scan r repl 0 [] s.
Proof.
  unfold re_sub.
  rewrite (sub_loop_scan repl (S (length s))); [done | lia | unfold measure, sub_fuel; simpl; lia].
Qed.

(** The scan copies a stretch where [r] matches nowhere ... *)
Lemma scan_copy (repl bf a b : pystr) :
  (forall a1 a2, a = a1 ++ a2 -> a2 <> [] ->
     matches r (Cursor (rev a1 ++ bf) (a2 ++ b)) Some = None) ->
  scan r repl 0 bf (a ++ b) = a ++ scan r repl 0 (rev a ++ bf) b.
Proof.
  revert bf. induction a as [|x a IH]; intros bf H; [done|]. simpl.
  pose proof (H [] (x :: a) eq_refl ltac:(done)) as H0. simpl in H0. rewrite H0. f_equal.
  rewrite IH; [by rewrite <- app_assoc|].
  intros a1 a2 -> Ha2. rewrite <- rev_cons_app. by apply (H (x :: a1)).
Qed.

(** ... and replaces a match [u] found at the current position. *)
Lemma scan_match (repl bf u af : pystr) :
  u <> [] -> matches r (Cursor bf (u ++ af)) Some = Some (Cursor (rev u ++ bf) af) ->
  scan r repl 0 bf (u ++ af) = repl ++ scan r repl 0 (rev u ++ bf) af.
Proof.
  destruct u as [|x u]; intros Hu Hm; [done|]. simpl in Hm |- *. rewrite Hm.
  replace (Init.Nat.pred _) with (length u) by (simpl; rewrite length_app; lia).
  rewrite scan_skip. by rewrite <- app_assoc.
Qed.

End NonNullable.

(** ** Witnesses *)

Lemma matches_sound_witness :
  exists c', in_re (lits «"ab"») (Cursor [] «"abc"») c' /\ Some c' = Some (Cursor «"ba"» «"c"»).
Proof. apply (matches_sound (lits «"ab"») (Cursor [] «"abc"») Some). reflexivity. Defined.

Lemma matches_complete_witness :
  exists y, matches (Alt (lits «"b"») (lits «"a"»)) (Cursor [] «"ab"») Some = Some y.
Proof.
  apply (matches_complete _ _ (Cursor «"a"» «"b"») Some (Cursor «"a"» «"b"»));
    [apply in_alt_r, (in_seq _ _ _ (Cursor «"a"» «"b"»)); constructor | reflexivity].
Defined.

Lemma re_sub_scan_witness :
  re_sub (Alt (lits «"ab"») (Seq EolM (lits «"c"»))) «"-"» «"xabyab"» =
  scan (Alt (lits «"ab"») (Seq EolM (lits «"c"»))) «"-"» 0 [] «"xabyab"».
Proof. apply re_sub_scan. reflexivity. Defined.

Lemma search_leftmost_witness :
  ahead (Cursor [] «"xab"») «"x"» (Cursor «"x"» «"ab"») /\
  match_at (lits «"ab"») (ma_at false «"x"») (Cursor «"x"» «"ab"») (Cursor «"bax"» []) /\
  forall u p e', ahead (Cursor [] «"xab"») u p -> length u < length «"x"» ->
    ~ match_at (lits «"ab"») (ma_at false u) p e'.
Proof. apply search_leftmost. vm_compute. reflexivity. Defined.

Lemma search_none_witness :
  ~ match_at (lits «"```"») (ma_at false «"a"») (Cursor «"a"» «"`b"») (Cursor «"`a"» «"b"»).
Proof.
  refine (search_none (lits «"```"») false [] «"a`b"» _ «"a"» (Cursor «"a"» «"`b"»)
            (Cursor «"`a"» «"b"») (conj eq_refl eq_refl)).
  vm_compute. reflexivity.
Defined.

End Regex.
