(* ===== verification/Fence.v ===== *)
(** * Stripping the Markdown code fence from the model's reply

    Line 80 of [src/resume_parser.py], in [parse_resume_with_gemini]:
<<
    clean_text = re.sub(r"^```(?:json)?|```$", "", response.text.strip(),
                        flags=re.MULTILINE).strip()
>>
    [FENCE_RE] is the pattern, [clean_text] the whole line. The theorems
    say what the line does to the replies the prompt asks for: a fenced
    JSON block loses its fence and nothing else, an unfenced block is only
    stripped; and around a fence with prose before or after it or with another
    tag, exactly the markers and a lower-case [json] go, the rest stays. *)

From S2P Require Import Prelude PyStr Regex.
Import PyStr Regex.

Module Fence.

(** [r"^```(?:json)?|```$"] under [re.MULTILINE]. *)
Definition FENCE_RE : regex :=
  Alt (Seq BolM (Seq (lits «"```"») (Opt (lits «"json"»))))
      (Seq (lits «"```"») EolM).

(** [clean_text] as computed on line 80 from [response.text]. *)
Definition clean_text (text : pystr) : pystr :=
  strip (re_sub FENCE_RE [] (strip text)).

(** A reply in the shape the prompt leads to: an opening fence with an
    optional language tag, the lines of [body], a closing fence. *)
Definition fenced (tag body : pystr) : pystr :=
  «"```"» ++ tag ++ NL :: body ++ NL :: «"```"».

(** No occurrence of three backticks in [body] begins or ends a line:
    each has a code point other than a line break just before it and
    just after it. A JSON text has this property: outside its strings
    a backtick is not allowed, and a string never spans a line break. *)
Definition fence_free (body : pystr) : Prop :=
  forall a1 a2, body = a1 ++ «"```"» ++ a2 ->
    (exists a1' x, a1 = a1' ++ [x] /\ x <> NL) /\
    (exists y a2', a2 = y :: a2' /\ y <> NL).

(** What the greedy [(?:json)?] leaves of the text after an opening
    fence: a leading [json] is taken, anything else is kept. *)
Definition after_tag (tag : pystr) : pystr :=
  if starts_with «"json"» tag then drop 4 tag else tag.

(** ** The pattern *)

(** A text without backticks is [fence_free]. *)
Lemma fence_free_no_ticks (body : pystr) : BACKTICK ∉ body -> fence_free body.
Proof. intros Hn a1 a2 ->. exfalso. apply Hn. unfold BACKTICK. set_solver. Qed.

Lemma FENCE_RE_nonnull : nullable FENCE_RE = false.
Proof. reflexivity. Qed.

Lemma clean_text_scan (text : pystr) :
  clean_text text = strip (scan FENCE_RE [] 0 [] (strip text)).
Proof.
  unfold clean_text, re_sub.
  rewrite (sub_loop_scan FENCE_RE FENCE_RE_nonnull [] (S (length (strip text))));
    [done | lia | unfold measure, sub_fuel; simpl; lia].
Qed.

(** Every match starts with three backticks. *)
Lemma fence_needs_ticks (bf af : pystr) :
  (forall r, af <> «"```"» ++ r) -> matches FENCE_RE (Cursor bf af) Some = None.
Proof.
  intros H. unfold FENCE_RE.
  destruct af as [|x1 [|x2 [|x3 af]]]; cbn; destruct bf as [|b bf]; cbn;
    destruct_eqb; try done; exfalso; eapply H; reflexivity.
Qed.

(** Away from the start of a line only [```$] can match. *)
Lemma fence_mid_line (b : pychar) (bf r : pystr) :
  b <> NL ->
  matches FENCE_RE (Cursor (b :: bf) («"```"» ++ r)) Some =
  if at_eol (Cursor [] r) then Some (Cursor (rev «"```"» ++ b :: bf) r) else None.
Proof.
  unfold NL. intros Hb. unfold FENCE_RE.
  destruct r as [|y r]; cbn; destruct_eqb; done.
Qed.

(** No match starts inside a [fence_free] block followed by a line break
    or by the end of the text. *)
Lemma fence_free_nomatch (body rest bf a1 a2 : pystr) :
  fence_free body -> at_eol (Cursor [] rest) = true ->
  body = a1 ++ a2 -> a2 <> [] ->
  matches FENCE_RE (Cursor (rev a1 ++ bf) (a2 ++ rest)) Some = None.
Proof.
  intros Hff Heol -> Ha2.
  destruct a2 as [|x1 [|x2 [|x3 a2]]]; [done| | |].
  1, 2: apply fence_needs_ticks; intros r;
    destruct rest as [|y rest]; simpl in Heol |- *; [intros [=]|];
    apply N.eqb_eq in Heol; subst; unfold NL; intros [=].
  destruct (decide (x1 = BACKTICK /\ x2 = BACKTICK /\ x3 = BACKTICK)) as [(-> & -> & ->)|Hx].
  - destruct (Hff a1 a2 eq_refl) as ((a1' & x & -> & Hx) & (y & a2' & -> & Hy)).
    rewrite rev_app_distr.
    change ((rev [x] ++ rev a1') ++ bf) with (x :: rev a1' ++ bf).
    change ((BACKTICK :: BACKTICK :: BACKTICK :: y :: a2') ++ rest)
      with («"```"» ++ (y :: a2' ++ rest)).
    rewrite fence_mid_line by done. unfold at_eol, NL in *. simpl. by destruct_eqb.
  - apply fence_needs_ticks. intros r [= -> -> -> _]. by apply Hx.
Qed.

(** ** The scan over a fenced reply *)

Lemma scan_newline (bf b : pystr) :
  scan FENCE_RE [] 0 bf (NL :: b) = NL :: scan FENCE_RE [] 0 (NL :: bf) b.
Proof. destruct bf; cbn; destruct_eqb; reflexivity. Qed.

Lemma scan_body (body bf rest : pystr) :
  fence_free body -> at_eol (Cursor [] rest) = true ->
  scan FENCE_RE [] 0 bf (body ++ rest) = body ++ scan FENCE_RE [] 0 (rev body ++ bf) rest.
Proof.
  intros Hff Heol. apply scan_copy.
  intros a1 a2 Hb Ha2. by apply (fence_free_nomatch body).
Qed.

(** The closing fence, at the start of the last line. *)
Lemma scan_closing (bf : pystr) :
  scan FENCE_RE [] 0 (NL :: bf) «"```"» = [].
Proof. reflexivity. Qed.

(** The opening fence, [```json] or [```], at the start of the text. *)
Lemma scan_opening (tag rest : pystr) :
  tag = «"json"» \/ tag = [] ->
  scan FENCE_RE [] 0 [] («"```"» ++ tag ++ NL :: rest) =
  scan FENCE_RE [] 0 (rev («"```"» ++ tag)) (NL :: rest).
Proof.
  intros [-> | ->].
  - change («"```"» ++ «"json"» ++ NL :: rest) with («"```json"» ++ NL :: rest).
    rewrite scan_match; [reflexivity | discriminate | reflexivity].
  - change («"```"» ++ [] ++ NL :: rest) with («"```"» ++ NL :: rest).
    rewrite scan_match; [reflexivity | discriminate | reflexivity].
Qed.

Lemma scan_fenced (tag body : pystr) :
  tag = «"json"» \/ tag = [] -> fence_free body ->
  scan FENCE_RE [] 0 [] (fenced tag body) = NL :: body ++ [NL].
Proof.
  intros Htag Hff. unfold fenced.
  rewrite scan_opening, scan_newline, scan_body, scan_newline, scan_closing
    by (done || reflexivity).
  done.
Qed.

Lemma fenced_stripped (tag body : pystr) : strip (fenced tag body) = fenced tag body.
Proof.
  apply strip_nonspace_ends; [by intros c t [= <- _]|].
  intros c t. unfold fenced. rewrite !rev_app_distr. simpl.
  rewrite !rev_app_distr. simpl. by intros [= <- _].
Qed.

(** White space around the reply is removed before the pattern runs. *)
Lemma clean_text_around (ws1 ws2 m : pystr) :
  all_space ws1 -> all_space ws2 -> clean_text (ws1 ++ m ++ ws2) = clean_text m.
Proof. intros H1 H2. unfold clean_text. by rewrite strip_around. Qed.

Lemma clean_text_fence (tag body : pystr) :
  tag = «"json"» \/ tag = [] -> fence_free body -> clean_text (fenced tag body) = strip body.
Proof.
  intros Htag Hff. rewrite clean_text_scan, fenced_stripped, scan_fenced by done.
  apply (strip_around [NL] body [NL]); repeat constructor.
Qed.

Lemma clean_text_body (body : pystr) :
  strip body = body -> fence_free body -> clean_text body = body.
Proof.
  intros Hs Hff. rewrite clean_text_scan, Hs.
  rewrite <- (app_nil_r body) at 1. rewrite scan_body by (done || reflexivity).
  by rewrite app_nil_r.
Qed.

(** ** Fences anywhere in the reply *)

(** A stretch without backticks is copied: no match starts in it. *)
Lemma scan_no_ticks (a bf rest : pystr) :
  BACKTICK ∉ a -> scan FENCE_RE [] 0 bf (a ++ rest) = a ++ scan FENCE_RE [] 0 (rev a ++ bf) rest.
Proof.
  intros Ha. apply scan_copy. intros a1 [|x a2] -> Hne; [done|].
  apply fence_needs_ticks. intros r [= -> _]. apply Ha.
  rewrite elem_of_app, elem_of_cons. by right; left.
Qed.

(** At the start of a line, [^```(?:json)?] matches the fence and a
    following [json], if any. *)
Lemma fence_open_match (bf x : pystr) :
  at_bol (Cursor bf []) = true ->
  matches FENCE_RE (Cursor bf («"```"» ++ x)) Some =
  Some (match matches (lits «"json"») (Cursor (rev «"```"» ++ bf) x) Some with
        | Some e => e
        | None => Cursor (rev «"```"» ++ bf) x
        end).
Proof.
  intros Hb. assert (Hb' : at_bol (Cursor bf («"```"» ++ x)) = true) by exact Hb.
  unfold FENCE_RE. cbn [matches]. rewrite Hb', matches_lits_app. cbn [matches].
  by destruct (matches (lits «"json"») _ Some).
Qed.

Lemma scan_open_at (bf x : pystr) :
  at_bol (Cursor bf []) = true ->
  exists bf', scan FENCE_RE [] 0 bf («"```"» ++ x) = scan FENCE_RE [] 0 bf' (after_tag x).
Proof.
  intros Hb. pose proof (fence_open_match bf x Hb) as Hm. unfold after_tag.
  destruct (starts_with «"json"» x) eqn:Hj.
  - apply starts_with_spec in Hj as [x' ->]. rewrite matches_lits_app in Hm.
    exists (rev («"```"» ++ «"json"») ++ bf).
    change («"```"» ++ «"json"» ++ x') with ((«"```"» ++ «"json"») ++ x').
    rewrite scan_match; [reflexivity | discriminate | exact Hm].
  - rewrite matches_lits_none in Hm by done. exists (rev «"```"» ++ bf).
    rewrite scan_match; [reflexivity | discriminate | exact Hm].
Qed.

(** [json] has no line break: a tag followed by one starts with [json]
    exactly when the tag does. *)
Lemma starts_with_json_tag (tag r : pystr) :
  starts_with «"json"» (tag ++ NL :: r) = starts_with «"json"» tag.
Proof.
  destruct tag as [|a [|b [|c [|d t]]]]; cbn; by destruct_eqb.
Qed.

Lemma after_tag_app (tag r : pystr) : after_tag (tag ++ NL :: r) = after_tag tag ++ NL :: r.
Proof.
  unfold after_tag. rewrite starts_with_json_tag.
  destruct (starts_with «"json"» tag) eqn:Hj; [|done].
  apply starts_with_spec in Hj as [t ->]. reflexivity.
Qed.

Lemma after_tag_no_ticks (tag : pystr) : BACKTICK ∉ tag -> BACKTICK ∉ after_tag tag.
Proof.
  unfold after_tag. destruct (starts_with «"json"» tag) eqn:Hj; [|done].
  apply starts_with_spec in Hj as [t ->]. intros Hn Ht. apply Hn.
  apply elem_of_app. by right.
Qed.

(** ** What line 80 does *)

(** C1: a reply fenced as [```json] or [```], with white space around it,
    becomes the text between the fences, stripped. *)
Theorem clean_text_fenced (ws1 ws2 tag body : pystr) :
  all_space ws1 -> all_space ws2 -> tag = «"json"» \/ tag = [] -> fence_free body ->
  clean_text (ws1 ++ fenced tag body ++ ws2) = strip body.
Proof. intros H1 H2 Htag Hff. rewrite clean_text_around by done. by apply clean_text_fence. Qed.

(** C22: an unfenced reply is only stripped. *)
Theorem clean_text_unfenced (ws1 ws2 body : pystr) :
  all_space ws1 -> all_space ws2 -> strip body = body -> fence_free body ->
  clean_text (ws1 ++ body ++ ws2) = body.
Proof. intros H1 H2 Hs Hff. rewrite clean_text_around by done. by apply clean_text_body. Qed.

(** C23: line 80 removes exactly the fence markers and a [json] right
    after the opening one: prose before the fence and after it, and any
    other language tag (an upper-case [JSON], [python], ...), stay in the
    text handed to [json.loads]. *)
Theorem clean_text_keeps_prose (ws1 ws2 pre tag body post : pystr) :
  all_space ws1 -> all_space ws2 ->
  strip (pre ++ fenced tag body ++ post) = pre ++ fenced tag body ++ post ->
  BACKTICK ∉ pre -> (pre = [] \/ exists pre', pre = pre' ++ [NL]) ->
  BACKTICK ∉ tag -> fence_free body ->
  BACKTICK ∉ post -> (post = [] \/ exists post', post = NL :: post') ->
  clean_text (ws1 ++ (pre ++ fenced tag body ++ post) ++ ws2) =
    strip (pre ++ after_tag tag ++ NL :: body ++ NL :: post).
Proof.
  intros H1 H2 Hs Hpre Hpre' Htag Hff Hpost Hpost'.
  rewrite clean_text_around, clean_text_scan, Hs by done. f_equal.
  assert (E : pre ++ fenced tag body ++ post =
              pre ++ «"```"» ++ (tag ++ NL :: body ++ NL :: «"```"» ++ post))
    by (unfold fenced; rewrite <- !app_assoc; cbn [app]; rewrite <- !app_assoc; reflexivity).
  rewrite E, scan_no_ticks by done. f_equal.
  destruct (scan_open_at (rev pre ++ []) (tag ++ NL :: body ++ NL :: «"```"» ++ post))
    as [bf1 ->].
  { destruct Hpre' as [-> | [pre' ->]]; [done|]. rewrite rev_app_distr. reflexivity. }
  rewrite after_tag_app, scan_no_ticks by (by apply after_tag_no_ticks). f_equal.
  rewrite scan_newline, scan_body by (done || reflexivity). do 2 f_equal.
  rewrite scan_newline. f_equal.
  destruct Hpost' as [-> | [post' ->]]; [by rewrite app_nil_r, scan_closing|].
  destruct (scan_open_at (NL :: rev body ++ NL :: rev (after_tag tag) ++ bf1) (NL :: post'))
    as [bf3 ->]; [reflexivity|].
  change (after_tag (NL :: post')) with (NL :: post').
  rewrite <- (app_nil_r (NL :: post')) at 1. rewrite scan_no_ticks by done.
  by rewrite app_nil_r.
Qed.

(** ** Witnesses *)

Lemma clean_text_fenced_witness :
  clean_text ([32%N] ++ fenced «"json"» «"{}"» ++ [NL]) = «"{}"».
Proof.
  apply (clean_text_fenced [32%N] [NL] «"json"» «"{}"»);
    [decide_eval | decide_eval | left; reflexivity |].
  apply fence_free_no_ticks. decide_eval.
Defined.

Lemma clean_text_unfenced_witness :
  clean_text ([NL] ++ «"[1, 2]"» ++ [32%N]) = «"[1, 2]"».
Proof.
  apply clean_text_unfenced; [decide_eval | decide_eval | reflexivity |].
  apply fence_free_no_ticks. decide_eval.
Defined.

(** A reply with a sentence before the fence, an upper-case tag and a
    sentence after it: all three stay. *)
Lemma clean_text_keeps_prose_witness :
  clean_text ([] ++ ((«"Here is the JSON:"» ++ [NL]) ++ fenced «"JSON"» «"{}"» ++
                     NL :: «"Hope this helps."») ++ [NL]) =
  strip ((«"Here is the JSON:"» ++ [NL]) ++ after_tag «"JSON"» ++ NL :: «"{}"» ++
         NL :: NL :: «"Hope this helps."»).
Proof.
  apply clean_text_keeps_prose;
    [decide_eval | decide_eval | vm_compute; reflexivity | decide_eval
    | right; eexists; reflexivity | decide_eval | apply fence_free_no_ticks; decide_eval
    | decide_eval | right; eexists; reflexivity].
Defined.

End Fence.
