(* ===== verification/Json.v ===== *)
(** * JSON texts

    What [json.loads] (line 98) accepts with its defaults: the grammar of
    RFC 8259 ([JSON-text = ws value ws]), strings with no raw control
    character ([strict=True]), and Python's extra literals [NaN],
    [Infinity] and [-Infinity]. The prompt (lines 14-66) asks the model
    for such a text. A JSON text is [guarded], hence [fence_free]: a
    backtick only occurs inside a string, and a string holds no raw line
    break (mutual induction on the grammar, [json_guarded]); a JSON value
    has no white space at its ends ([json_value_stripped]). So the fence
    removal of line 80 gives back a JSON reply stripped, fenced
    ([clean_text_fenced_json]) or not ([clean_text_json]). *)

From S2P Require Import Prelude PyStr Regex Fence.
Import PyStr Regex Fence.

Module Json.

(** [ws = *( %x20 / %x09 / %x0A / %x0D )] *)
Definition is_ws (c : pychar) : bool :=
  (c =? 32)%N || (c =? 9)%N || (c =? 10)%N || (c =? 13)%N.

Definition ws (s : pystr) : Prop := Forall (fun c => is_ws c = true) s.

Definition is_digit (c : pychar) : bool := ((48 <=? c) && (c <=? 57))%N.

Definition is_hex (c : pychar) : bool :=
  is_digit c || ((65 <=? c) && (c <=? 70))%N || ((97 <=? c) && (c <=? 102))%N.

(** One character of a string: unescaped, a two-character escape
    (after the backslash: the double quote, the backslash, the slash, b, f,
    n, r, t) or a [\uXXXX] escape. *)
Inductive str_char : pystr -> Prop :=
  | sc_plain (c : pychar) : (32 <= c)%N -> c <> 34%N -> c <> 92%N -> str_char [c]
  | sc_escape (c : pychar) : c ∈ [34; 92; 47; 98; 102; 110; 114; 116]%N -> str_char [92%N; c]
  | sc_unicode (h1 h2 h3 h4 : pychar) :
      is_hex h1 = true -> is_hex h2 = true -> is_hex h3 = true -> is_hex h4 = true ->
      str_char [92%N; 117%N; h1; h2; h3; h4].

Definition json_string (s : pystr) : Prop :=
  exists parts, Forall str_char parts /\ s = 34%N :: concat parts ++ [34%N].

(** The code points a number is written with. *)
Definition num_char (c : pychar) : Prop := is_digit c = true \/ c ∈ [45; 43; 46; 101; 69]%N.

Definition digits (ds : pystr) : Prop := ds <> [] /\ Forall (fun c => is_digit c = true) ds.

(** [number = [ minus ] int [ frac ] [ exp ]] *)
Definition json_number (s : pystr) : Prop :=
  exists m i f e, s = m ++ i ++ f ++ e /\
    (m = [] \/ m = [45%N]) /\
    (i = [48%N] \/ exists d ds, i = d :: ds /\ (49 <= d <= 57)%N /\ Forall (fun c => is_digit c = true) ds) /\
    (f = [] \/ exists ds, f = 46%N :: ds /\ digits ds) /\
    (e = [] \/ exists x sg ds, e = x :: sg ++ ds /\ (x = 101%N \/ x = 69%N) /\
                               (sg = [] \/ sg = [43%N] \/ sg = [45%N]) /\ digits ds).

(** Values, the elements of a non-empty array and the members of a
    non-empty object, each with the white space the grammar allows. *)
Inductive json_value : pystr -> Prop :=
  | jv_lit (s : pystr) :
      s ∈ [«"null"»; «"true"»; «"false"»; «"NaN"»; «"Infinity"»; «"-Infinity"»] ->
      json_value s
  | jv_number (s : pystr) : json_number s -> json_value s
  | jv_string (s : pystr) : json_string s -> json_value s
  | jv_array_empty (w : pystr) : ws w -> json_value (91%N :: w ++ [93%N])
  | jv_array (s : pystr) : json_elems s -> json_value (91%N :: s ++ [93%N])
  | jv_object_empty (w : pystr) : ws w -> json_value (123%N :: w ++ [125%N])
  | jv_object (s : pystr) : json_members s -> json_value (123%N :: s ++ [125%N])
with json_elems : pystr -> Prop :=
  | je_one (w1 v w2 : pystr) : ws w1 -> json_value v -> ws w2 -> json_elems (w1 ++ v ++ w2)
  | je_cons (w1 v w2 rest : pystr) :
      ws w1 -> json_value v -> ws w2 -> json_elems rest ->
      json_elems (w1 ++ v ++ w2 ++ 44%N :: rest)
with json_members : pystr -> Prop :=
  | jm_one (w1 k w2 w3 v w4 : pystr) :
      ws w1 -> json_string k -> ws w2 -> ws w3 -> json_value v -> ws w4 ->
      json_members (w1 ++ k ++ w2 ++ 58%N :: w3 ++ v ++ w4)
  | jm_cons (w1 k w2 w3 v w4 rest : pystr) :
      ws w1 -> json_string k -> ws w2 -> ws w3 -> json_value v -> ws w4 -> json_members rest ->
      json_members (w1 ++ k ++ w2 ++ 58%N :: w3 ++ v ++ w4 ++ 44%N :: rest).

(** [JSON-text = ws value ws] *)
Definition json_text (s : pystr) : Prop :=
  exists w1 v w2, ws w1 /\ json_value v /\ ws w2 /\ s = w1 ++ v ++ w2.

(** Every backtick of [s] has a neighbour on each side within [s], and
    neither is a line break. *)
Definition guarded (s : pystr) : Prop :=
  forall a b, s = a ++ BACKTICK :: b ->
    (exists a' x, a = a' ++ [x] /\ x <> NL) /\ (exists y b', b = y :: b' /\ y <> NL).

(** The replies the prompt asks for: a JSON text, alone or in a
    [```json] or [```] fence with white space around it. *)
Inductive json_reply : pystr -> Prop :=
  | reply_plain (s : pystr) : json_text s -> json_reply s
  | reply_fenced (ws1 ws2 tag body : pystr) :
      all_space ws1 -> all_space ws2 -> tag = «"json"» \/ tag = [] -> json_text body ->
      json_reply (ws1 ++ fenced tag body ++ ws2).

(** A reply whose string holds a fence: [[1, "a```b"]]. *)
Definition tick_string : pystr := 34%N :: «"a```b"» ++ [34%N].
Definition tick_array : pystr :=
  91%N :: ([] ++ «"1"» ++ [] ++ 44%N :: ([32%N] ++ tick_string ++ [])) ++ [93%N].

Scheme json_value_mut := Minimality for json_value Sort Prop
  with json_elems_mut := Minimality for json_elems Sort Prop
  with json_members_mut := Minimality for json_members Sort Prop.
Combined Scheme json_mut from json_value_mut, json_elems_mut, json_members_mut.

(** ** Backticks and line breaks *)

Lemma guarded_no_tick (s : pystr) : BACKTICK ∉ s -> guarded s.
Proof. intros Hn a b ->. exfalso. apply Hn. set_solver. Qed.

Lemma guarded_app (x y : pystr) : guarded x -> guarded y -> guarded (x ++ y).
Proof.
  intros Hx Hy a b Heq. apply app_eq_app in Heq as (l & [[-> Hl] | [-> Hl]]).
  - destruct l as [|z l].
    + simpl in Hl. subst y. destruct (Hy [] b eq_refl) as ((a' & x' & Ha & _) & _).
      by destruct a'.
    + injection Hl as <- ->. destruct (Hx a l eq_refl) as [Hl (y0 & b' & -> & Hy0)].
      split; [done|]. eexists _, _. split; [reflexivity | done].
  - destruct (Hy l b Hl) as ((a' & x' & -> & Hx') & Hr).
    split; [|done]. exists (x ++ a'), x'. split; [by rewrite app_assoc | done].
Qed.

(** A block with no line break, that neither starts nor ends with a
    backtick, is guarded. *)
Lemma guarded_inner (s : pystr) :
  NL ∉ s -> (forall t, s <> BACKTICK :: t) -> (forall t, s <> t ++ [BACKTICK]) -> guarded s.
Proof.
  intros Hnl Hb He a b ->. split.
  - destruct a as [|c a] using rev_ind; [by destruct (Hb b)|].
    exists a, c. split; [done|]. intros ->. apply Hnl. set_solver.
  - destruct b as [|y b']; [by destruct (He a)|].
    exists y, b'. split; [done|]. intros ->. apply Hnl. set_solver.
Qed.

Lemma guarded_fence_free (s : pystr) : guarded s -> fence_free s.
Proof.
  intros Hg a1 a2 Heq. split.
  - exact (proj1 (Hg a1 (BACKTICK :: BACKTICK :: a2) Heq)).
  - refine (proj2 (Hg (a1 ++ [BACKTICK; BACKTICK]) a2 _)).
    rewrite Heq, <- app_assoc. reflexivity.
Qed.

(** ** The characters of JSON tokens *)

Lemma digit_cases (c : pychar) :
  is_digit c = true ->
  c = 48%N \/ c = 49%N \/ c = 50%N \/ c = 51%N \/ c = 52%N \/
  c = 53%N \/ c = 54%N \/ c = 55%N \/ c = 56%N \/ c = 57%N.
Proof. unfold is_digit. intros [H1 H2]%andb_true_iff. apply N.leb_le in H1, H2. lia. Qed.

Lemma num_char_plain (c : pychar) : num_char c -> c <> BACKTICK /\ isspace c = false.
Proof.
  unfold BACKTICK. intros [Hd | Hin].
  - apply digit_cases in Hd. destruct_or!; subst; split; (discriminate || reflexivity).
  - repeat (apply elem_of_cons in Hin as [-> | Hin]; [split; (discriminate || reflexivity)|]).
    by apply elem_of_nil in Hin.
Qed.

Lemma ws_space (c : pychar) : is_ws c = true -> c <> BACKTICK /\ isspace c = true.
Proof.
  unfold is_ws, BACKTICK. intros H.
  repeat apply orb_true_iff in H as [H | H]; apply N.eqb_eq in H; subst;
    split; (discriminate || reflexivity).
Qed.

Lemma ws_all_space (w : pystr) : ws w -> all_space w.
Proof. intros Hw. eapply Forall_impl; [exact Hw|]. intros c Hc. exact (proj2 (ws_space c Hc)). Qed.

Lemma json_number_chars (s : pystr) : json_number s -> Forall num_char s.
Proof.
  intros (m & i & f & e & -> & Hm & Hi & Hf & He).
  assert (Hd : forall ds, Forall (fun c => is_digit c = true) ds -> Forall num_char ds)
    by (intros ds Hds; eapply Forall_impl; [exact Hds|]; intros c Hc; by left).
  assert (Hl : forall l, Forall (fun c => c ∈ [45; 43; 46; 101; 69]%N) l -> Forall num_char l)
    by (intros l Hl; eapply Forall_impl; [exact Hl|]; intros c Hc; by right).
  repeat apply Forall_app_2.
  - destruct Hm as [-> | ->]; apply Hl; decide_eval.
  - destruct Hi as [-> | (d & ds & -> & Hd1 & Hds)]; constructor; try by apply Hd.
    + left. reflexivity.
    + left. unfold is_digit. apply andb_true_iff. split; apply N.leb_le; lia.
  - destruct Hf as [-> | (ds & -> & _ & Hds)]; [constructor|].
    constructor; [right; decide_eval | by apply Hd].
  - destruct He as [-> | (x & sg & ds & -> & Hx & Hsg & _ & Hds)]; [constructor|].
    constructor; [right; destruct Hx as [-> | ->]; decide_eval|].
    apply Forall_app_2; [|by apply Hd].
    destruct Hsg as [-> | [-> | ->]]; apply Hl; decide_eval.
Qed.

Lemma str_char_no_nl (p : pystr) : str_char p -> Forall (fun c => c <> NL) p.
Proof.
  unfold NL. destruct 1 as [c Hc _ _ | c Hc | h1 h2 h3 h4 H1 H2 H3 H4].
  - constructor; [lia | constructor].
  - constructor; [discriminate|]. constructor; [|constructor].
    intros ->. repeat (apply elem_of_cons in Hc as [Hc | Hc]; [discriminate|]).
    by apply elem_of_nil in Hc.
  - assert (Hh : forall h, is_hex h = true -> h <> 10%N).
    { unfold is_hex, is_digit. intros h Hh ->. discriminate. }
    repeat constructor; (discriminate || by apply Hh).
Qed.

Lemma json_string_guarded (s : pystr) : json_string s -> guarded s.
Proof.
  intros (parts & Hp & ->). apply guarded_inner.
  - refine (not_elem_of_Forall (fun c => c <> NL) _ _ _ (fun H => H eq_refl)).
    assert (Hq : Forall (fun c => c <> NL) [34%N]) by (repeat constructor; discriminate).
    constructor; [unfold NL; discriminate|]. apply Forall_app_2; [|exact Hq].
    apply Forall_concat. eapply Forall_impl; [exact Hp|]. apply str_char_no_nl.
  - unfold BACKTICK. by intros t [=].
  - intros t H. rewrite app_comm_cons in H. by apply app_inj_tail in H as [_ [=]].
Qed.

Lemma guarded_char (c : pychar) : c <> BACKTICK -> guarded [c].
Proof. intros Hc. apply guarded_no_tick. rewrite list_elem_of_singleton. congruence. Qed.

Lemma guarded_ws (w : pystr) : ws w -> guarded w.
Proof.
  intros Hw. apply guarded_no_tick, (not_elem_of_Forall _ _ _ Hw).
  intros H. exact (proj1 (ws_space _ H) eq_refl).
Qed.

Lemma guarded_number (s : pystr) : json_number s -> guarded s.
Proof.
  intros Hn. apply guarded_no_tick, (not_elem_of_Forall _ _ _ (json_number_chars s Hn)).
  intros H. exact (proj1 (num_char_plain _ H) eq_refl).
Qed.

Create HintDb guard discriminated.
#[local] Hint Resolve guarded_ws guarded_char json_string_guarded : guard.

(** Splits a concatenation into its pieces and closes each with the
    hypotheses and the lemmas above. *)
Ltac guard_split :=
  match goal with
  | |- guarded [_] => apply guarded_char; unfold BACKTICK; discriminate
  | |- guarded (?c :: ?t) => change (c :: t) with ([c] ++ t); apply guarded_app; guard_split
  | |- guarded (?x ++ ?y) => apply guarded_app; guard_split
  | |- guarded _ => first [assumption | eauto with guard]
  end.

Lemma json_guarded :
  (forall s, json_value s -> guarded s) /\ (forall s, json_elems s -> guarded s) /\
  (forall s, json_members s -> guarded s).
Proof.
  apply (json_mut guarded guarded guarded); try (intros; by guard_split).
  - intros s Hs. apply guarded_no_tick.
    repeat (apply elem_of_cons in Hs as [-> | Hs]; [decide_eval|]).
    by apply elem_of_nil in Hs.
  - apply guarded_number.
Qed.

(** ** Stripping *)

Lemma strip_brackets (o c : pychar) (m : pystr) :
  isspace o = false -> isspace c = false -> strip (o :: m ++ [c]) = o :: m ++ [c].
Proof.
  intros Ho Hc. apply strip_nonspace_ends.
  - by intros ? ? [= <- _].
  - intros c' t. rewrite app_comm_cons, rev_unit. by intros [= <- _].
Qed.

Lemma strip_nonspace (s : pystr) : Forall (fun c => isspace c = false) s -> strip s = s.
Proof.
  intros Hs. apply strip_nonspace_ends.
  - intros c t ->. by inversion Hs.
  - intros c t Hr. apply Forall_rev in Hs. rewrite Hr in Hs. by inversion Hs.
Qed.

Lemma json_value_stripped (v : pystr) : json_value v -> strip v = v.
Proof.
  destruct 1 as [s Hs | s Hs | s (parts & _ & ->) | w | s | w | s];
    try (apply strip_brackets; reflexivity).
  - repeat (apply elem_of_cons in Hs as [-> | Hs]; [vm_compute; reflexivity|]).
    by apply elem_of_nil in Hs.
  - apply strip_nonspace. eapply Forall_impl; [exact (json_number_chars s Hs)|].
    intros c Hc. exact (proj2 (num_char_plain c Hc)).
Qed.

Lemma json_text_guarded (s : pystr) : json_text s -> guarded s.
Proof.
  intros (w1 & v & w2 & H1 & Hv & H2 & ->).
  repeat apply guarded_app; [by apply guarded_ws | by apply (proj1 json_guarded) | by apply guarded_ws].
Qed.

Lemma json_text_fence_free (s : pystr) : json_text s -> fence_free s.
Proof. intros H. by apply guarded_fence_free, json_text_guarded. Qed.

Lemma json_text_strip (s : pystr) :
  json_text s -> exists v, json_value v /\ strip s = v.
Proof.
  intros (w1 & v & w2 & H1 & Hv & H2 & ->). exists v. split; [done|].
  rewrite strip_around by (by apply ws_all_space). by apply json_value_stripped.
Qed.

(** ** The fence removal on JSON replies *)

Lemma json_text_clean (w1 v w2 : pystr) :
  ws w1 -> json_value v -> ws w2 -> clean_text (w1 ++ v ++ w2) = v.
Proof.
  intros H1%ws_all_space Hv H2%ws_all_space. rewrite clean_text_around by done.
  apply clean_text_body; [by apply json_value_stripped|].
  by apply guarded_fence_free, (proj1 json_guarded).
Qed.

(** C24: A reply that is a JSON text (RFC 8259 with Python's extra
    literals) comes out of the fence removal of line 80 as the text with
    its surrounding white space stripped, whatever backticks its strings
    hold. *)
Theorem clean_text_json (s : pystr) : json_text s -> clean_text s = strip s.
Proof.
  intros (w1 & v & w2 & H1 & Hv & H2 & ->). rewrite json_text_clean by done.
  rewrite strip_around by (by apply ws_all_space). by rewrite json_value_stripped.
Qed.

(** C2: A JSON reply inside a Markdown fence, tagged [json] or untagged,
    with any white space around the fence, comes out of the fence removal
    of line 80 as the JSON text stripped. *)
Theorem clean_text_fenced_json (ws1 ws2 tag body : pystr) :
  all_space ws1 -> all_space ws2 -> tag = «"json"» \/ tag = [] -> json_text body ->
  clean_text (ws1 ++ fenced tag body ++ ws2) = strip body.
Proof.
  intros H1 H2 Htag Hb. rewrite clean_text_around by done.
  by apply clean_text_fence, json_text_fence_free.
Qed.

(** C3: type: every reply of the shape the prompt asks for comes out of
    the fence removal of line 80 as a JSON value, a text of the grammar
    [json.loads] (line 98) parses. (CPython's decoder also has limits
    outside the grammar: integers of more than 4300 digits from 3.11 on,
    and nesting deeper than the recursion limit.) *)
Theorem clean_text_json_value (reply : pystr) : json_reply reply -> json_value (clean_text reply).
Proof.
  destruct 1 as [s (w1 & v & w2 & H1 & Hv & H2 & ->) | ws1 ws2 tag body H1 H2 Htag Hb].
  - by rewrite json_text_clean.
  - rewrite clean_text_around, clean_text_fence by auto using json_text_fence_free.
    by destruct (json_text_strip body Hb) as (v & Hv & ->).
Qed.

(** ** Witnesses *)

Lemma tick_array_value : json_value tick_array.
Proof.
  unfold tick_array. apply jv_array. apply je_cons; [decide_eval | | decide_eval |].
  - apply jv_number. exists [], [49%N], [], []. split; [reflexivity|].
    split; [by left|]. split; [|split; by left].
    right. exists 49%N, []. split; [reflexivity|]. split; [lia | constructor].
  - apply je_one; [decide_eval | apply jv_string | decide_eval].
    exists [[97%N]; [96%N]; [96%N]; [96%N]; [98%N]]. split; [|reflexivity].
    repeat constructor; lia.
Qed.

Lemma tick_array_text (w1 w2 : pystr) : ws w1 -> ws w2 -> json_text (w1 ++ tick_array ++ w2).
Proof. intros H1 H2. exists w1, tick_array, w2. split_and!; try done. apply tick_array_value. Qed.

Lemma clean_text_json_witness :
  clean_text ([NL] ++ tick_array ++ [NL]) = tick_array.
Proof.
  rewrite (clean_text_json _ (tick_array_text [NL] [NL] ltac:(decide_eval) ltac:(decide_eval))).
  vm_compute. reflexivity.
Defined.

Lemma clean_text_fenced_json_witness :
  clean_text ([32%N] ++ fenced «"json"» tick_array ++ [NL]) = tick_array.
Proof.
  transitivity (strip tick_array); [|vm_compute; reflexivity].
  apply clean_text_fenced_json; [decide_eval | decide_eval | left; reflexivity |].
  apply (tick_array_text [] []); decide_eval.
Defined.

Lemma clean_text_json_value_witness :
  json_value (clean_text ([32%N] ++ fenced «"json"» tick_array ++ [NL])).
Proof.
  apply clean_text_json_value, reply_fenced; [decide_eval | decide_eval | left; reflexivity |].
  apply (tick_array_text [] []); decide_eval.
Defined.

End Json.
