(* ===== verification/Prompt.v ===== *)
(** * The prompt sent to the model

    [PROMPT_TEMPLATE] (lines 14-66 of [src/resume_parser.py]) and line 77
    of [parse_resume_with_gemini]:
<<
    prompt = PROMPT_TEMPLATE.replace("{resume_text}", resume_text)
>>
    The template is written below with [@] in place of each double quote
    of the source (the template has no [@] of its own); [dq] puts the
    double quotes back. *)

From S2P Require Import Prelude PyStr.
Import PyStr.

Module Prompt.

(** The template literal with [@] (64) for each double quote (34). *)
Definition dq (s : pystr) : pystr := map (fun c => if (c =? 64)%N then 34%N else c) s.

Definition PROMPT_TEMPLATE : pystr := dq «"
You are an intelligent resume parser designed to extract detailed candidate information in a precise structured JSON format.

From the raw resume text below, extract and organize the following data:

Return the output in *exactly* this JSON format (with accurate nesting and field names):

{
  @Skills@: {
    @Languages@: [...],
    @Technologies@: [...],
    @Core@: [...]
  },
  @Certifications@: [
    ...
  ],
  @Projects@: [
    {
      @title@: @...@,
      @date@: @...@,
      @details@: [
        @...@,
        @...@
      ]
    },
    ...
  ],
  @Work Experience@: [
    {
      @role@: @...@,
      @organization@: @...@,
      @location@: @...@, // if not available, use null
      @date@: @...@,
      @responsibilities@: [
        @...@,
        @...@
      ]
    },
    ...
  ]
}

Rules:
- Classify @Skills@ into three categories: Languages, Technologies, Core (conceptual/academic).
- Each @Project@ should include a title, date (if available), and bullet point descriptions.
- @Work Experience@ must include role, organization, date range, location (null if not mentioned), and responsibilities as bullet points.
- Only return the JSON object. No explanations, headings, or comments.
- If any field has no data, use an empty list [] or null appropriately.

Now, extract from the resume below:

{resume_text}
"».

(** [prompt = PROMPT_TEMPLATE.replace("{resume_text}", resume_text)] *)
Definition prompt (resume_text : pystr) : pystr :=
  replace «"{resume_text}"» resume_text PROMPT_TEMPLATE.

(** The instructions: the template up to its placeholder. *)
Definition PROMPT_HEAD : pystr := take 1314 PROMPT_TEMPLATE.

(** ** The prompt *)

Lemma template_split : PROMPT_TEMPLATE = PROMPT_HEAD ++ «"{resume_text}"» ++ [NL].
Proof. vm_compute. reflexivity. Qed.

Lemma prompt_split (resume_text : pystr) :
  prompt resume_text = PROMPT_HEAD ++ resume_text ++ [NL].
Proof.
  unfold prompt. rewrite template_split, replace_cons, replace_go_step;
    [| discriminate | apply no_match_beforeb_spec; vm_compute; reflexivity].
  rewrite replace_go_none; [done|]. apply no_match_beforeb_spec. vm_compute. reflexivity.
Qed.

(** C14: the prompt is the instructions, then the resume text verbatim, then
    a line break. The text is inserted once and not searched again, so a
    placeholder inside the resume text is kept as it is. *)
Theorem prompt_spec (resume_text : pystr) :
  prompt resume_text = PROMPT_HEAD ++ resume_text ++ [NL].
Proof. apply prompt_split. Qed.

End Prompt.
