(* ===== verification/Config.v ===== *)
(** * The API key set-up (lines 9-11)

    Line 10 writes a literal key into [os.environ["GOOGLE_API_KEY"]];
    line 11 reads it back and hands it to [genai.configure]. The process
    state is the environment, a map from variable names to values, and
    the key the Gemini client is configured with. The literal itself is
    left abstract ([key_literal]): the theorem holds whatever it is. *)

From S2P Require Import Prelude.
From stdpp Require Import gmap strings.

Module Config.

Record proc := Proc {
  env : gmap string string;       (** [os.environ], names to values *)
  genai_key : option string       (** the key [genai.configure] was given *)
}.

Definition GOOGLE_API_KEY : string := "GOOGLE_API_KEY".

Section Setup.

(** The string literal of line 10. *)
Variable key_literal : string.

(** Line 10: [os.environ["GOOGLE_API_KEY"] = "..."]. *)
Definition set_env (p : proc) : proc :=
  Proc (<[GOOGLE_API_KEY := key_literal]> (env p)) (genai_key p).

(** Line 11: [genai.configure(api_key=os.environ["GOOGLE_API_KEY"])]; the
    subscript raises [KeyError] ([None]) when the variable is unset. *)
Definition configure (p : proc) : option proc :=
  match env p !! GOOGLE_API_KEY with
  | Some k => Some (Proc (env p) (Some k))
  | None => None
  end.

(** Lines 10-11 in order. *)
Definition setup (p : proc) : option proc := configure (set_env p).

(** C32: the set-up never raises, configures the client with the literal
    key whatever the environment held (a key the user exported is
    overwritten and ignored), and leaves the other variables alone. *)
Theorem setup_uses_literal (p : proc) :
  exists p', setup p = Some p' /\ genai_key p' = Some key_literal /\
    env p' !! GOOGLE_API_KEY = Some key_literal /\
    forall x, x <> GOOGLE_API_KEY -> env p' !! x = env p !! x.
Proof.
  unfold setup, configure, set_env. cbn [env genai_key]. rewrite lookup_insert_eq.
  eexists. split; [reflexivity|]. cbn [env genai_key]. split; [done|].
  split; [apply lookup_insert_eq|]. intros x Hx. by apply lookup_insert_ne.
Qed.

End Setup.

End Config.
