(* ===== verification/App.v ===== *)
(** * The Streamlit script

    Lines 68-110 of [src/resume_parser.py]: [extract_text_from_pdf],
    [parse_resume_with_gemini] and the top-level script that Streamlit runs
    from top to bottom on each interaction. The collaborators the source
    calls but does not implement (PyMuPDF, the Gemini client, [json.loads],
    [ats_score.calculate_score], Python's formatting of values) form the
    interface [Externals]; the page is the list of elements the script
    writes, threaded through a state and exception monad [M]. *)

From S2P Require Import Prelude PyStr Regex Fence Json Prompt.
Import PyStr Fence Json Prompt.

Module App.

Section Script.

(** Python exceptions, uploaded files, their bytes, PDF documents and
    pages, parsed JSON values and scores. *)
Context {Exn Upload Bytes Doc Page Json Score : Type}.

(** A computation that returns a value or raises an exception. *)
Inductive res (A : Type) : Type :=
  | Ok (a : A)
  | Raise (e : Exn).
Arguments Ok {A} a.
Arguments Raise {A} e.

(** What the collaborators offer the script. *)
Class Externals := {
  read : Upload -> Bytes;                (** [uploaded_file.read()] *)
  fitz_open : Bytes -> res Doc;          (** [fitz.open(stream=..., filetype="pdf")] *)
  doc_pages : Doc -> list Page;          (** [for page in doc] *)
  get_text : Page -> res pystr;          (** [page.get_text()] *)
  generate_text : pystr -> res pystr;    (** [model.generate_content(prompt).text] *)
  json_loads : pystr -> res Json;        (** [json.loads] *)
  calculate_score : Json -> res Score;   (** [ats_score.calculate_score] *)
  str_score : Score -> pystr;            (** [f"{ats_score}"] *)
  str_exn : Exn -> pystr;                (** [f"{e}"] *)
  is_Exception : Exn -> bool             (** [isinstance(e, Exception)] *)
}.

(** What the page shows, in the order the script writes it; a spinner
    appears when its [with] block is entered and goes when it is left. *)
Inductive delta :=
  | Title (s : pystr)
  | Markdown (s : pystr)
  | FileUploader (label : pystr) (types : list pystr)
  | SpinnerStart (s : pystr)
  | SpinnerEnd
  | Success (s : pystr)
  | Subheader (s : pystr)
  | JsonView (v : Json)
  | Write (s : pystr)
  | Error (s : pystr)
  | Text (s : pystr).

Definition page := list delta.

(** ** The state and exception monad of the script *)

Definition M (A : Type) : Type := page -> page * res A.

Definition ret {A} (a : A) : M A := fun p => (p, Ok a).

Definition bind {A B} (m : M A) (f : A -> M B) : M B :=
  fun p => match m p with
           | (p', Ok a) => f a p'
           | (p', Raise e) => (p', Raise e)
           end.

(** A collaborator's call inside the script. *)
Definition lift {A} (r : res A) : M A := fun p => (p, r).

(** [st.title], [st.markdown], [st.success], ...: one more element. *)
Definition emit (d : delta) : M unit := fun p => (p ++ [d], Ok tt).

(** [with st.spinner(msg): body]: the spinner goes when the block is
    left, normally or by an exception. *)
Definition with_spinner {A} (msg : pystr) (body : M A) : M A :=
  fun p => let '(p', r) := body (p ++ [SpinnerStart msg]) in (p' ++ [SpinnerEnd], r).

(** [try: body except Exception as e: handler(e)]: exceptions that are
    not instances of [Exception] go through. *)
Definition try_except `{Externals} {A} (body : M A) (handler : Exn -> M A) : M A :=
  fun p => match body p with
           | (p', Raise e) => if is_Exception e then handler e p' else (p', Raise e)
           | ok => ok
           end.

(** Iterating a generator of fallible items: the first exception stops it. *)
Fixpoint map_res {A B} (f : A -> res B) (l : list A) : res (list B) :=
  match l with
  | [] => Ok []
  | x :: l' =>
      match f x with
      | Raise e => Raise e
      | Ok y => match map_res f l' with
                | Raise e => Raise e
                | Ok ys => Ok (y :: ys)
                end
      end
  end.

Declare Scope app_scope.
Delimit Scope app_scope with app.
Notation "x <- m ;; k" := (bind m (fun x => k))
  (at level 100, m at next level, right associativity) : app_scope.
Notation "m ;; k" := (bind m (fun _ => k)) (at level 100, right associativity) : app_scope.
Open Scope app_scope.

(** ** The texts the script writes (lines 85-110) *)

Definition TITLE : pystr := [128196%N] ++ «" ATS SCORE"».
Definition UPLOAD_HINT : pystr := «"Upload a resume PDF"».
Definition UPLOADER_LABEL : pystr := «"Drag and drop a resume PDF here"».
Definition SPIN_EXTRACT : pystr := [128269%N] ++ «" Extracting text from PDF..."».
Definition SPIN_PARSE : pystr := [129302%N] ++ «" Parsing resume with Gemini..."».
Definition MSG_SUCCESS : pystr := [9989%N] ++ «" Resume successfully parsed!"».
Definition HDR_JSON : pystr := [129534%N] ++ «" Parsed Resume (JSON):"».
Definition HDR_SCORE : pystr := [128202%N] ++ «" ATS Score:"».
Definition MSG_ERROR : pystr := [9888%N; 65039%N] ++ «" Failed to parse JSON output."».

(** ** The script *)

Context `{EX : Externals}.

(** Lines 69-72. *)
Definition extract_text_from_pdf (uploaded_file : Upload) : res pystr :=
  match fitz_open (read uploaded_file) with
  | Raise e => Raise e
  | Ok doc =>
      match map_res get_text (doc_pages doc) with
      | Ok texts => Ok (join [NL] texts)
      | Raise e => Raise e
      end
  end.

(** Lines 75-81. *)
Definition parse_resume_with_gemini (resume_text : pystr) : res pystr :=
  match generate_text (prompt resume_text) with
  | Ok text => Ok (clean_text text)
  | Raise e => Raise e
  end.

(** Lines 85-88. *)
Definition header : M unit :=
  emit (Title TITLE) ;;
  emit (Markdown UPLOAD_HINT) ;;
  emit (FileUploader UPLOADER_LABEL [«"pdf"»]).

(** Lines 97-110. *)
Definition show_result (parsed_json_text : pystr) : M unit :=
  try_except
    (parsed_output <- lift (json_loads parsed_json_text) ;;
     emit (Success MSG_SUCCESS) ;;
     emit (Subheader HDR_JSON) ;;
     emit (JsonView parsed_output) ;;
     emit (Subheader HDR_SCORE) ;;
     ats_score <- lift (calculate_score parsed_output) ;;
     emit (Write («"**Score:** "» ++ str_score ats_score ++ «"/100"»)))
    (fun e =>
     emit (Error MSG_ERROR) ;;
     emit (Text («"Raw Output:"» ++ NL :: parsed_json_text)) ;;
     emit (Text («"Error: "» ++ str_exn e))).

(** Lines 85-110: one run of the script; [uploaded_file] is what
    [st.file_uploader] returns. *)
Definition script (uploaded_file : option Upload) : M unit :=
  header ;;
  match uploaded_file with
  | None => ret tt
  | Some f =>
      resume_text <- with_spinner SPIN_EXTRACT (lift (extract_text_from_pdf f)) ;;
      parsed_json_text <-
        with_spinner SPIN_PARSE (lift (parse_resume_with_gemini resume_text)) ;;
      show_result parsed_json_text
  end.

(** The page of a run from a blank page, and the exception that escapes
    it, if any. *)
Definition run (uploaded_file : option Upload) : page * res unit :=
  script uploaded_file [].

(** What the script relies on from [json.loads] (line 98): it accepts
    every JSON text ([Json.json_text]). This is an assumption on the
    collaborator, not a fact of CPython for every input: from 3.11 its
    decoder refuses integers of more than 4300 digits, and it raises
    [RecursionError] on nesting past the recursion limit. *)
Class JsonLoadsContract : Prop :=
  json_loads_accepts : forall s, json_text s -> exists j, json_loads s = Ok j.

(** ** What the page holds *)

Definition header_page : page :=
  [Title TITLE; Markdown UPLOAD_HINT; FileUploader UPLOADER_LABEL [«"pdf"»]].

(** What the [except] handler writes (lines 108-110). *)
Definition handler_page (parsed_json_text : pystr) (e : Exn) : page :=
  [Error MSG_ERROR; Text («"Raw Output:"» ++ NL :: parsed_json_text);
   Text («"Error: "» ++ str_exn e)].

(** Unfolds the monad and the script, leaving the collaborators and the
    components of the other files folded. *)
Local Ltac run_unfold :=
  cbv beta iota zeta delta [run script header show_result bind ret lift emit
                            with_spinner try_except fst snd].

Local Ltac rewrite_hyps :=
  repeat match goal with
  | H : ?x = _ |- context [?x] => rewrite H; cbv beta iota zeta
  end.

(** ** The generator of page texts *)

Lemma map_res_ok {A B} (g : A -> res B) (l : list A) (ys : list B) :
  map_res g l = Ok ys <-> Forall2 (fun x y => g x = Ok y) l ys.
Proof.
  revert ys. induction l as [|x l IH]; intros ys; simpl.
  - split; [intros [= <-]; constructor | by inversion 1].
  - destruct (g x) as [y|e] eqn:Hg.
    + destruct (map_res g l) as [ys'|e] eqn:Hl; split.
      * intros [= <-]. constructor; [done | by apply IH].
      * inversion 1 as [|? y' ? ys'' Hy Hrest]; subst.
        apply IH in Hrest. congruence.
      * discriminate.
      * inversion 1 as [|? y' ? ys'' Hy Hrest]; subst. apply IH in Hrest. congruence.
    + split; [discriminate | inversion 1; congruence].
Qed.

Lemma map_res_raise_at {A B} (g : A -> res B) (l1 l2 : list A) (x : A) (e : Exn) :
  Forall (fun y => exists v, g y = Ok v) l1 -> g x = Raise e ->
  map_res g (l1 ++ x :: l2) = Raise e.
Proof.
  induction 1 as [|y l1 (v & Hv) _ IH]; intros Hx; simpl; [by rewrite Hx|].
  by rewrite Hv, IH.
Qed.

(** ** The two functions *)

(** C28: the text of a PDF is the text of its pages, in order, joined by
    line breaks. *)
Theorem extract_text_ok (f : Upload) (doc : Doc) (texts : list pystr) :
  fitz_open (read f) = Ok doc ->
  Forall2 (fun pg t => get_text pg = Ok t) (doc_pages doc) texts ->
  extract_text_from_pdf f = Ok (join [NL] texts).
Proof.
  intros Ho Hp. unfold extract_text_from_pdf. rewrite Ho.
  by rewrite (proj2 (map_res_ok _ _ _) Hp).
Qed.

(** C29: the first page whose text cannot be read makes
    [extract_text_from_pdf] raise that page's exception. *)
Theorem extract_text_page_error (f : Upload) (doc : Doc) (l1 l2 : list Page) (pg : Page) (e : Exn) :
  fitz_open (read f) = Ok doc -> doc_pages doc = l1 ++ pg :: l2 ->
  Forall (fun p => exists t, get_text p = Ok t) l1 -> get_text pg = Raise e ->
  extract_text_from_pdf f = Raise e.
Proof.
  intros Ho Hd Hl1 Hpg. unfold extract_text_from_pdf. rewrite Ho.
  rewrite Hd. by rewrite (map_res_raise_at _ _ _ _ e).
Qed.

(** C20: the model receives the instructions followed by the resume text;
    when it answers with a fenced JSON block, [parse_resume_with_gemini]
    returns the text inside the fence. *)
Theorem parse_resume_fenced (resume_text ws1 ws2 tag body : pystr) :
  generate_text (PROMPT_HEAD ++ resume_text ++ [NL]) = Ok (ws1 ++ fenced tag body ++ ws2) ->
  all_space ws1 -> all_space ws2 -> tag = «"json"» \/ tag = [] -> fence_free body ->
  parse_resume_with_gemini resume_text = Ok (strip body).
Proof.
  intros Hg H1 H2 Ht Hb. unfold parse_resume_with_gemini.
  rewrite prompt_split, Hg, clean_text_around by done. by rewrite clean_text_fence.
Qed.

(** ** Runs of the script *)

(** C4: a resume whose text is extracted, parsed by the model into text
    that [json.loads] accepts, and scored, shows the parsed JSON and the
    score, and the run ends normally. *)
Theorem run_success (f : Upload) (resume_text parsed_json_text : pystr) (j : Json) (sc : Score) :
  extract_text_from_pdf f = Ok resume_text ->
  parse_resume_with_gemini resume_text = Ok parsed_json_text ->
  json_loads parsed_json_text = Ok j ->
  calculate_score j = Ok sc ->
  run (Some f) =
    (header_page ++
     [SpinnerStart SPIN_EXTRACT; SpinnerEnd; SpinnerStart SPIN_PARSE; SpinnerEnd;
      Success MSG_SUCCESS; Subheader HDR_JSON; JsonView j; Subheader HDR_SCORE;
      Write («"**Score:** "» ++ str_score sc ++ «"/100"»)], Ok tt).
Proof. intros. run_unfold. rewrite_hyps. reflexivity. Qed.

(** C19: when [json.loads] rejects the cleaned reply with an [Exception],
    the page shows the error message, the raw text and the exception, and
    no success message; the run ends normally. *)
Theorem run_json_error (f : Upload) (resume_text parsed_json_text : pystr) (e : Exn) :
  extract_text_from_pdf f = Ok resume_text ->
  parse_resume_with_gemini resume_text = Ok parsed_json_text ->
  json_loads parsed_json_text = Raise e -> is_Exception e = true ->
  run (Some f) =
    (header_page ++
     [SpinnerStart SPIN_EXTRACT; SpinnerEnd; SpinnerStart SPIN_PARSE; SpinnerEnd;
      Error MSG_ERROR; Text («"Raw Output:"» ++ NL :: parsed_json_text);
      Text («"Error: "» ++ str_exn e)], Ok tt).
Proof. intros. run_unfold. rewrite_hyps. reflexivity. Qed.

(** C6: an [Exception] raised by [calculate_score] is caught by the same
    handler: the page shows the success message and the parsed JSON, and
    then reports a failure to parse the JSON output. *)
Theorem run_score_error (f : Upload) (resume_text parsed_json_text : pystr)
    (j : Json) (e : Exn) :
  extract_text_from_pdf f = Ok resume_text ->
  parse_resume_with_gemini resume_text = Ok parsed_json_text ->
  json_loads parsed_json_text = Ok j ->
  calculate_score j = Raise e -> is_Exception e = true ->
  run (Some f) =
    (header_page ++
     [SpinnerStart SPIN_EXTRACT; SpinnerEnd; SpinnerStart SPIN_PARSE; SpinnerEnd;
      Success MSG_SUCCESS; Subheader HDR_JSON; JsonView j; Subheader HDR_SCORE;
      Error MSG_ERROR; Text («"Raw Output:"» ++ NL :: parsed_json_text);
      Text («"Error: "» ++ str_exn e)], Ok tt).
Proof. intros. run_unfold. rewrite_hyps. reflexivity. Qed.

(** C25: an exception that is not an [Exception] (a [BaseException] such as
    Streamlit's rerun and stop requests) escapes the [try]: nothing is
    reported and the run ends with it. *)
Theorem run_score_base_exception (f : Upload) (resume_text parsed_json_text : pystr)
    (j : Json) (e : Exn) :
  extract_text_from_pdf f = Ok resume_text ->
  parse_resume_with_gemini resume_text = Ok parsed_json_text ->
  json_loads parsed_json_text = Ok j ->
  calculate_score j = Raise e -> is_Exception e = false ->
  run (Some f) =
    (header_page ++
     [SpinnerStart SPIN_EXTRACT; SpinnerEnd; SpinnerStart SPIN_PARSE; SpinnerEnd;
      Success MSG_SUCCESS; Subheader HDR_JSON; JsonView j; Subheader HDR_SCORE], Raise e).
Proof. intros. run_unfold. rewrite_hyps. reflexivity. Qed.

(** C26: an exception while reading the PDF is not caught: the run stops
    after the first spinner and the model is never asked. *)
Theorem run_extract_error (f : Upload) (e : Exn) :
  extract_text_from_pdf f = Raise e ->
  run (Some f) = (header_page ++ [SpinnerStart SPIN_EXTRACT; SpinnerEnd], Raise e).
Proof. intros. run_unfold. rewrite_hyps. reflexivity. Qed.

(** C27: an exception from the model is not caught either: the run stops
    after the second spinner. *)
Theorem run_parse_error (f : Upload) (resume_text : pystr) (e : Exn) :
  extract_text_from_pdf f = Ok resume_text ->
  parse_resume_with_gemini resume_text = Raise e ->
  run (Some f) =
    (header_page ++ [SpinnerStart SPIN_EXTRACT; SpinnerEnd; SpinnerStart SPIN_PARSE; SpinnerEnd],
     Raise e).
Proof. intros. run_unfold. rewrite_hyps. reflexivity. Qed.

(** C5: when the model answers as the prompt asks, with a JSON text in a
    [```json] or [```] fence, and [json.loads] keeps the contract
    [JsonLoadsContract] (an assumption: CPython meets it except on
    integers of more than 4300 digits and on nesting past the recursion
    limit), the page shows the success message and the parsed JSON,
    whatever [calculate_score] then does. *)
Theorem run_reply_as_asked {JC : JsonLoadsContract} (f : Upload)
    (resume_text ws1 ws2 tag body : pystr) :
  extract_text_from_pdf f = Ok resume_text ->
  generate_text (PROMPT_HEAD ++ resume_text ++ [NL]) = Ok (ws1 ++ fenced tag body ++ ws2) ->
  all_space ws1 -> all_space ws2 -> tag = «"json"» \/ tag = [] -> json_text body ->
  exists j, json_loads (strip body) = Ok j /\
    (header_page ++
     [SpinnerStart SPIN_EXTRACT; SpinnerEnd; SpinnerStart SPIN_PARSE; SpinnerEnd;
      Success MSG_SUCCESS; Subheader HDR_JSON; JsonView j; Subheader HDR_SCORE])
      `prefix_of` fst (run (Some f)).
Proof.
  intros He Hg H1 H2 Ht Hb.
  assert (Hp : parse_resume_with_gemini resume_text = Ok (strip body)).
  { unfold parse_resume_with_gemini. rewrite prompt_split, Hg, clean_text_around by done.
    rewrite clean_text_fence; [done | done | by apply json_text_fence_free]. }
  destruct (json_loads_accepts (strip body)) as [j Hj].
  { destruct (json_text_strip body Hb) as (v & Hv & ->). exists [], v, [].
    split_and!; [constructor | done | constructor | by rewrite app_nil_r]. }
  exists j. split; [done|]. clear Hg H1 H2 Ht Hb.
  run_unfold. rewrite_hyps.
  destruct (calculate_score j) as [sc|e]; [|destruct (is_Exception e)]; eexists; reflexivity.
Qed.

(** ** Every path of a run *)

Lemma show_result_cases (parsed_json_text : pystr) (p : page) :
  show_result parsed_json_text p =
  match json_loads parsed_json_text with
  | Ok j =>
      let p1 := p ++ [Success MSG_SUCCESS; Subheader HDR_JSON; JsonView j; Subheader HDR_SCORE] in
      match calculate_score j with
      | Ok sc => (p1 ++ [Write («"**Score:** "» ++ str_score sc ++ «"/100"»)], Ok tt)
      | Raise e => if is_Exception e then (p1 ++ handler_page parsed_json_text e, Ok tt)
                   else (p1, Raise e)
      end
  | Raise e => if is_Exception e then (p ++ handler_page parsed_json_text e, Ok tt)
               else (p, Raise e)
  end.
Proof.
  cbv beta iota zeta delta [show_result bind lift emit try_except handler_page].
  destruct (json_loads _) as [j|e]; [destruct (calculate_score j) as [sc|e]|];
    try destruct (is_Exception e); by rewrite <- ?app_assoc.
Qed.

Lemma run_some_cases (f : Upload) :
  run (Some f) =
  match extract_text_from_pdf f with
  | Raise e => (header_page ++ [SpinnerStart SPIN_EXTRACT; SpinnerEnd], Raise e)
  | Ok t =>
      match parse_resume_with_gemini t with
      | Raise e =>
          (header_page ++ [SpinnerStart SPIN_EXTRACT; SpinnerEnd; SpinnerStart SPIN_PARSE;
                           SpinnerEnd], Raise e)
      | Ok pj =>
          show_result pj (header_page ++ [SpinnerStart SPIN_EXTRACT; SpinnerEnd;
                                          SpinnerStart SPIN_PARSE; SpinnerEnd])
      end
  end.
Proof.
  cbv beta iota zeta delta [run script header bind ret lift emit with_spinner fst snd].
  destruct (extract_text_from_pdf f); [|done].
  destruct (parse_resume_with_gemini _); done.
Qed.

End Script.

Arguments res : clear implicits.
Arguments Ok {Exn A} a.
Arguments Raise {Exn A} e.

(** Case analysis on every collaborator a run with a file consults. *)
Ltac run_cases f :=
  rewrite run_some_cases;
  destruct (extract_text_from_pdf f) as [t|?] eqn:?;
    [destruct (parse_resume_with_gemini t) as [pj|?] eqn:?;
       [rewrite show_result_cases;
        destruct (json_loads pj) as [j|?] eqn:?;
          [destruct (calculate_score j) as [sc|?] eqn:?|]|]|];
  repeat match goal with
         | |- context [if is_Exception ?e then _ else _] => destruct (is_Exception e) eqn:?
         end.

(** A fact of the context, or one that holds by computation. *)
Ltac fact := first [reflexivity | eassumption].

(** Membership of an element in a page written out in full. *)
Ltac page_elem :=
  match goal with
  | H : _ ∈ _ |- _ =>
      apply list_elem_of_In in H; cbv [handler_page header_page] in H;
      rewrite ?in_app_iff in H; simpl in H;
      repeat (destruct H as [H|H]; [try discriminate H|]); try contradiction
  end.

End App.
