(* ===== verification/Pages.v ===== *)
(** * What the page shows, at every moment of a run

    Streamlit shows each element as soon as the script writes it, and a
    spinner from the moment its [with] block is entered to the moment it
    is left. The page of a run, [fst (run u)], is therefore also the
    trace of what the user sees: each of its prefixes is a moment of the
    run. This file states properties of that trace, for every behaviour
    of the collaborators:
    - an invariant of the monad [App.M], proved operation by operation
      ([keeps_depth], hint database [keeps]): the spinners are balanced
      when the run ends ([run_spinners_closed]);
    - safety, over every prefix ([always_prefix]): at no moment are two
      spinners shown, and none is removed that was not shown
      ([run_one_spinner]); a score is shown only when [calculate_score]
      returned it ([run_score_shown]);
    - liveness, as a response property: every spinner that appears is
      removed later ([run_spinner_ends]). *)

From S2P Require Import Prelude PyStr Regex Fence Json Prompt App.
Import PyStr Fence Json Prompt App.

Module Pages.

Section Pages.

Context {Exn Upload Bytes Doc Page Json Score : Type}.
Context `{EX : @Externals Exn Upload Bytes Doc Page Json Score}.

#[local] Abbreviation page := (@App.page Json).
#[local] Abbreviation M := (@App.M Exn Json).

(** Every spinner that appears goes: the depth of open spinners after
    reading a page from depth [d], or [None] if one goes twice. *)
Fixpoint depth_after (d : nat) (p : page) : option nat :=
  match p with
  | [] => Some d
  | SpinnerStart _ :: p' => depth_after (S d) p'
  | SpinnerEnd :: p' => match d with O => None | S d' => depth_after d' p' end
  | _ :: p' => depth_after d p'
  end.

Definition keeps_depth {A} (m : M A) : Prop :=
  forall p d, depth_after 0 p = Some d -> depth_after 0 (fst (m p)) = Some d.

(** No more than one spinner shown, and none removed that was not shown. *)
Definition spinner_ok (q : page) : bool :=
  match depth_after 0 q with Some d => d <=? 1 | None => false end.

(** [P] holds at every moment while [p] is written: on each prefix. *)
Definition always_prefix (P : page -> bool) (p : page) : Prop :=
  forall q, q `prefix_of` p -> P q = true.

(** ** Exceptions and error messages, over all paths *)

(** C7: an exception escapes a run only when no [try] covers it: it comes
    from reading the PDF or from the model, or it is not an [Exception]
    and comes from [json.loads] or [calculate_score]. *)
Theorem run_uncaught (u : option Upload) (p : page) (e : Exn) :
  run u = (p, Raise e) ->
  exists f, u = Some f /\
    (extract_text_from_pdf f = Raise e \/
     (exists t, extract_text_from_pdf f = Ok t /\ parse_resume_with_gemini t = Raise e) \/
     (is_Exception e = false /\ exists t pj, extract_text_from_pdf f = Ok t /\
        parse_resume_with_gemini t = Ok pj /\
        (json_loads pj = Raise e \/ exists j, json_loads pj = Ok j /\ calculate_score j = Raise e))).
Proof.
  intros H. destruct u as [f|]; [|discriminate]. exists f. split; [done|]. revert H.
  run_cases f; intros [= <- <-];
    solve [left; fact
          | right; left; eexists; split; fact
          | right; right; split; [fact|]; do 2 eexists; split_and!; try fact;
            first [left; fact | right; eexists; split; fact]].
Qed.

(** C8: the page reports [Failed to parse JSON output] exactly when
    [json.loads] or [calculate_score] raises an [Exception]. *)
Theorem run_error_shown (u : option Upload) :
  Error MSG_ERROR ∈ fst (run u) <->
  exists f t pj e, u = Some f /\ extract_text_from_pdf f = Ok t /\
    parse_resume_with_gemini t = Ok pj /\ is_Exception e = true /\
    (json_loads pj = Raise e \/ exists j, json_loads pj = Ok j /\ calculate_score j = Raise e).
Proof.
  split.
  - destruct u as [f|]; [|intros H; page_elem].
    run_cases f; simpl; intros H; page_elem;
      do 4 eexists; split_and!; try fact;
      first [left; fact | right; eexists; split; fact].
  - intros (f & t & pj & e & -> & Ht & Hp & He & Hj).
    rewrite run_some_cases, Ht, Hp, show_result_cases.
    destruct Hj as [-> | (j & -> & ->)]; rewrite He; simpl;
      apply list_elem_of_In; cbv [handler_page]; simpl;
      repeat first [left; reflexivity | right].
Qed.

(** ** The spinners are balanced: an invariant of [M] *)

Lemma depth_after_app (d : nat) (p q : page) :
  depth_after d (p ++ q) =
  match depth_after d p with Some d' => depth_after d' q | None => None end.
Proof.
  revert d. induction p as [|x p IH]; intros d; [done|].
  destruct x; simpl; try apply IH. destruct d; [done | apply IH].
Qed.

Lemma keeps_ret {A} (a : A) : keeps_depth (ret a).
Proof. by intros p d Hp. Qed.

Lemma keeps_lift {A} (r : res Exn A) : keeps_depth (lift r).
Proof. by intros p d Hp. Qed.

Lemma keeps_emit (x : delta) :
  (forall s, x <> SpinnerStart s) -> x <> SpinnerEnd -> keeps_depth (emit x).
Proof.
  intros H1 H2 p d Hp. simpl. rewrite depth_after_app, Hp.
  destruct x; try done. by destruct (H1 s).
Qed.

Lemma keeps_bind {A B} (m : M A) (k : A -> M B) :
  keeps_depth m -> (forall a, keeps_depth (k a)) -> keeps_depth (bind m k).
Proof.
  intros Hm Hk p d Hp. unfold bind. pose proof (Hm p d Hp) as Hm'.
  destruct (m p) as [p' [a|e]]; simpl in *; [by apply Hk | done].
Qed.

Lemma keeps_with_spinner {A} (msg : pystr) (body : M A) :
  keeps_depth body -> keeps_depth (with_spinner msg body).
Proof.
  intros Hb p d Hp. unfold with_spinner.
  assert (Hs : depth_after 0 (p ++ [SpinnerStart msg]) = Some (S d))
    by (by rewrite depth_after_app, Hp).
  pose proof (Hb _ _ Hs) as Hb'. destruct (body _) as [p' r]. simpl in *.
  by rewrite depth_after_app, Hb'.
Qed.

Lemma keeps_try {A} (body : M A) (h : Exn -> M A) :
  keeps_depth body -> (forall e, keeps_depth (h e)) -> keeps_depth (try_except body h).
Proof.
  intros Hb Hh p d Hp. unfold try_except. pose proof (Hb p d Hp) as Hb'.
  destruct (body p) as [p' [a|e]]; [done|]. destruct (is_Exception e); [by apply Hh | done].
Qed.

Create HintDb keeps discriminated.
#[local] Hint Resolve keeps_ret keeps_lift keeps_bind keeps_with_spinner keeps_try : keeps.
#[local] Hint Extern 2 (keeps_depth (emit _)) => apply keeps_emit; [intros ?|]; discriminate : keeps.

Lemma script_keeps (u : option Upload) : keeps_depth (script u).
Proof.
  unfold script, header, show_result. destruct u; eauto 30 with keeps.
Qed.

(** C21: on every path of a run, errors and uncaught exceptions included,
    each spinner shown is removed, and none is removed twice. *)
Theorem run_spinners_closed (u : option Upload) : depth_after 0 (fst (run u)) = Some 0.
Proof. apply script_keeps. reflexivity. Qed.


(** ** Every moment of a run *)

Lemma always_prefix_check (P : page -> bool) (p : page) :
  forallb (fun n => P (take n p)) (seq 0 (S (length p))) = true -> always_prefix P p.
Proof.
  intros H q [k ->]. rewrite forallb_forall in H.
  rewrite <- (take_app_length q k). apply H, in_seq. rewrite length_app. lia.
Qed.

(** From [S d] open spinners, closing them all needs a [SpinnerEnd]. *)
Lemma depth_end_ahead (d : nat) (r : page) :
  depth_after (S d) r = Some 0 -> exists k, r !! k = Some SpinnerEnd.
Proof.
  revert d. induction r as [|x r IH]; intros d H; [discriminate|].
  destruct x; simpl in H; try (by exists 0);
    destruct (IH _ H) as [k Hk]; by exists (S k).
Qed.

(** On a balanced page, every spinner start has an end after it. *)
Lemma balanced_response (p : page) (i : nat) (s : pystr) :
  depth_after 0 p = Some 0 -> p !! i = Some (SpinnerStart s) ->
  exists j, i < j /\ p !! j = Some SpinnerEnd.
Proof.
  intros Hp Hi. rewrite <- (take_drop_middle p i _ Hi), depth_after_app in Hp.
  destruct (depth_after 0 (take i p)) as [d|]; [|discriminate]. cbn [depth_after] in Hp.
  destruct (depth_end_ahead d _ Hp) as [k Hk].
  exists (S i + k). split; [lia | exact (eq_trans (eq_sym (lookup_drop p (S i) k)) Hk)].
Qed.

(** C9: safety: at every moment of every run at most one spinner is
    shown, and no spinner is removed that was not shown; the extraction
    spinner is gone before the model's appears. *)
Theorem run_one_spinner (u : option Upload) : always_prefix spinner_ok (fst (run u)).
Proof.
  apply always_prefix_check. destruct u as [f|]; [run_cases f|]; reflexivity.
Qed.

(** C11: liveness: every spinner that appears on the page of a run is
    removed later in the same run, on every path, errors included. *)
Theorem run_spinner_ends (u : option Upload) (i : nat) (s : pystr) :
  fst (run u) !! i = Some (SpinnerStart s) ->
  exists j, i < j /\ fst (run u) !! j = Some SpinnerEnd.
Proof. apply balanced_response. apply script_keeps. reflexivity. Qed.

(** C10: safety: a score is shown only when the reply was parsed by
    [json.loads] and [calculate_score] returned that score. *)
Theorem run_score_shown (u : option Upload) (s : pystr) :
  Write s ∈ fst (run u) ->
  exists f t pj j sc, u = Some f /\ extract_text_from_pdf f = Ok t /\
    parse_resume_with_gemini t = Ok pj /\ json_loads pj = Ok j /\
    calculate_score j = Ok sc /\ s = «"**Score:** "» ++ str_score sc ++ «"/100"».
Proof.
  destruct u as [f|]; [|intros H; page_elem].
  run_cases f; simpl; intros H; page_elem.
  injection H as <-. do 5 eexists. split_and!; fact.
Qed.

End Pages.

End Pages.
