(* ===== verification/Demo.v ===== *)
(** * Concrete collaborators and runs of the script

    A small implementation of the interface [App.Externals], with Python
    values as strings: an upload is its bytes, a document is its list of
    pages, [json.loads] accepts the text [{}], the model's answer, the
    score and whether exceptions are [Exception]s are parameters. The runs
    below evaluate the script of [App] on it, the prompt and the fence
    removal included. *)

From S2P Require Import Prelude PyStr Regex Fence Json Prompt App Pages.
Import PyStr Fence Json Prompt App Pages.

Module Demo.

Definition demo_ext (reply : res pystr pystr) (score : res pystr N) (exc : bool)
    : @Externals pystr pystr pystr (list pystr) pystr pystr N := {|
  read := fun f => f;
  fitz_open := fun b =>
    if decide (b = []) then Raise «"EmptyFileError"»
    else if decide (b = «"two pages"») then Ok [«"p1"»; «"corrupt"»]
    else Ok [b];
  doc_pages := fun d => d;
  get_text := fun pg =>
    if decide (pg = «"corrupt"») then Raise «"RuntimeError"» else Ok pg;
  generate_text := fun _ => reply;
  json_loads := fun s =>
    if decide (s = «"{}"») then Ok s else Raise «"JSONDecodeError"»;
  calculate_score := fun _ => score;
  str_score := fun _ => «"42"»;
  str_exn := fun e => e;
  is_Exception := fun _ => exc
|}.

(** The reply the prompt asks for. *)
Definition fenced_reply : pystr := fenced «"json"» «"{}"».

(** Collaborators that all succeed. *)
Definition ex_ok := demo_ext (Ok fenced_reply) (Ok 42%N) true.

(** Collaborators whose [json.loads] accepts every text, so that it
    keeps [JsonLoadsContract]; the model answers [reply]. *)
Definition loads_ext (reply : res pystr pystr)
    : @Externals pystr pystr pystr (list pystr) pystr pystr N := {|
  read := fun f => f;
  fitz_open := fun b => Ok [b];
  doc_pages := fun d => d;
  get_text := fun pg => Ok pg;
  generate_text := fun _ => reply;
  json_loads := fun s => Ok s;
  calculate_score := fun _ => Ok 42%N;
  str_score := fun _ => «"42"»;
  str_exn := fun e => e;
  is_Exception := fun _ => true
|}.

#[export] Instance loads_ext_contract (reply : res pystr pystr) :
  JsonLoadsContract (EX := loads_ext reply) :=
  fun s _ => ex_intro _ s eq_refl.

(** ** Witnesses *)

Lemma run_success_witness :
  run (EX := demo_ext (Ok fenced_reply) (Ok 42%N) true) (Some «"Jane Doe"») =
    (header_page ++
     [SpinnerStart SPIN_EXTRACT; SpinnerEnd; SpinnerStart SPIN_PARSE; SpinnerEnd;
      Success MSG_SUCCESS; Subheader HDR_JSON; JsonView «"{}"»; Subheader HDR_SCORE;
      Write («"**Score:** "» ++ «"42"» ++ «"/100"»)], Ok tt).
Proof.
  apply (run_success (EX := demo_ext (Ok fenced_reply) (Ok 42%N) true)
           «"Jane Doe"» «"Jane Doe"» «"{}"» «"{}"» 42%N); vm_compute; reflexivity.
Defined.

Lemma run_json_error_witness :
  run (EX := demo_ext (Ok «"I cannot read this resume."») (Ok 42%N) true)
      (Some «"Jane Doe"») =
    (header_page ++
     [SpinnerStart SPIN_EXTRACT; SpinnerEnd; SpinnerStart SPIN_PARSE; SpinnerEnd;
      Error MSG_ERROR; Text («"Raw Output:"» ++ NL :: «"I cannot read this resume."»);
      Text («"Error: "» ++ «"JSONDecodeError"»)], Ok tt).
Proof.
  apply (run_json_error (EX := demo_ext (Ok «"I cannot read this resume."») (Ok 42%N) true)
           «"Jane Doe"» «"Jane Doe"» «"I cannot read this resume."» «"JSONDecodeError"»);
    vm_compute; reflexivity.
Defined.

Lemma run_score_error_witness :
  run (EX := demo_ext (Ok fenced_reply) (Raise «"KeyError: 'Skills'"») true)
      (Some «"Jane Doe"») =
    (header_page ++
     [SpinnerStart SPIN_EXTRACT; SpinnerEnd; SpinnerStart SPIN_PARSE; SpinnerEnd;
      Success MSG_SUCCESS; Subheader HDR_JSON; JsonView «"{}"»; Subheader HDR_SCORE;
      Error MSG_ERROR; Text («"Raw Output:"» ++ NL :: «"{}"»);
      Text («"Error: "» ++ «"KeyError: 'Skills'"»)], Ok tt).
Proof.
  apply (run_score_error (EX := demo_ext (Ok fenced_reply) (Raise «"KeyError: 'Skills'"») true)
           «"Jane Doe"» «"Jane Doe"» «"{}"» «"{}"» «"KeyError: 'Skills'"»);
    vm_compute; reflexivity.
Defined.

Lemma run_score_base_exception_witness :
  run (EX := demo_ext (Ok fenced_reply) (Raise «"RerunException"») false)
      (Some «"Jane Doe"») =
    (header_page ++
     [SpinnerStart SPIN_EXTRACT; SpinnerEnd; SpinnerStart SPIN_PARSE; SpinnerEnd;
      Success MSG_SUCCESS; Subheader HDR_JSON; JsonView «"{}"»; Subheader HDR_SCORE],
     Raise «"RerunException"»).
Proof.
  apply (run_score_base_exception
           (EX := demo_ext (Ok fenced_reply) (Raise «"RerunException"») false)
           «"Jane Doe"» «"Jane Doe"» «"{}"» «"{}"» «"RerunException"»);
    vm_compute; reflexivity.
Defined.

Lemma run_extract_error_witness :
  run (EX := ex_ok) (Some []) =
    (header_page ++ [SpinnerStart SPIN_EXTRACT; SpinnerEnd], Raise «"EmptyFileError"»).
Proof. apply (run_extract_error (EX := ex_ok) [] «"EmptyFileError"»). vm_compute. reflexivity. Defined.

Lemma run_parse_error_witness :
  run (EX := demo_ext (Raise «"ResourceExhausted"») (Ok 42%N) true) (Some «"Jane Doe"») =
    (header_page ++ [SpinnerStart SPIN_EXTRACT; SpinnerEnd; SpinnerStart SPIN_PARSE; SpinnerEnd],
     Raise «"ResourceExhausted"»).
Proof.
  apply (run_parse_error (EX := demo_ext (Raise «"ResourceExhausted"») (Ok 42%N) true)
           «"Jane Doe"» «"Jane Doe"» «"ResourceExhausted"»); vm_compute; reflexivity.
Defined.

Lemma extract_text_ok_witness :
  extract_text_from_pdf (EX := ex_ok) «"Jane Doe"» = Ok (join [NL] [«"Jane Doe"»]).
Proof.
  apply (extract_text_ok (EX := ex_ok) «"Jane Doe"» [«"Jane Doe"»]);
    [vm_compute; reflexivity | vm_compute; repeat constructor].
Defined.

Lemma extract_text_page_error_witness :
  extract_text_from_pdf (EX := ex_ok) «"two pages"» = Raise «"RuntimeError"».
Proof.
  apply (extract_text_page_error (EX := ex_ok) «"two pages"» [«"p1"»; «"corrupt"»]
           [«"p1"»] [] «"corrupt"»);
    [vm_compute; reflexivity | vm_compute; reflexivity | | vm_compute; reflexivity].
  repeat constructor. exists «"p1"». vm_compute. reflexivity.
Defined.

Lemma parse_resume_fenced_witness :
  parse_resume_with_gemini (EX := ex_ok) «"Jane Doe"» = Ok «"{}"».
Proof.
  apply (parse_resume_fenced (EX := ex_ok) «"Jane Doe"» [] [] «"json"» «"{}"»);
    [vm_compute; reflexivity | decide_eval | decide_eval | left; reflexivity |].
  apply fence_free_no_ticks. decide_eval.
Defined.

Lemma run_reply_as_asked_witness :
  exists j,
    json_loads (Externals := loads_ext (Ok (fenced «"json"» tick_array ++ [NL]))) (strip tick_array) = Ok j /\
    (header_page ++
     [SpinnerStart SPIN_EXTRACT; SpinnerEnd; SpinnerStart SPIN_PARSE; SpinnerEnd;
      Success MSG_SUCCESS; Subheader HDR_JSON; JsonView j; Subheader HDR_SCORE])
      `prefix_of` fst (run (EX := loads_ext (Ok (fenced «"json"» tick_array ++ [NL])))
                           (Some «"Jane Doe"»)).
Proof.
  apply (run_reply_as_asked (EX := loads_ext (Ok (fenced «"json"» tick_array ++ [NL])))
           «"Jane Doe"» «"Jane Doe"» [] [NL] «"json"» tick_array);
    [vm_compute; reflexivity | vm_compute; reflexivity | decide_eval | decide_eval
    | left; reflexivity | apply (tick_array_text [] []); decide_eval].
Defined.

Lemma run_uncaught_witness :
  exists f, Some [] = Some f /\
    (extract_text_from_pdf (EX := ex_ok) f = Raise «"EmptyFileError"» \/
     (exists t, extract_text_from_pdf (EX := ex_ok) f = Ok t /\
        parse_resume_with_gemini (EX := ex_ok) t = Raise «"EmptyFileError"») \/
     (is_Exception (Externals := ex_ok) «"EmptyFileError"» = false /\
      exists t pj, extract_text_from_pdf (EX := ex_ok) f = Ok t /\
        parse_resume_with_gemini (EX := ex_ok) t = Ok pj /\
        (json_loads (Externals := ex_ok) pj = Raise «"EmptyFileError"» \/
         exists j, json_loads (Externals := ex_ok) pj = Ok j /\
           calculate_score (Externals := ex_ok) j = Raise «"EmptyFileError"»))).
Proof.
  apply (run_uncaught (EX := ex_ok) (Some [])
           (header_page ++ [SpinnerStart SPIN_EXTRACT; SpinnerEnd])).
  vm_compute. reflexivity.
Defined.

Lemma run_spinner_ends_witness :
  exists j, 3 < j /\ fst (run (EX := ex_ok) (Some «"Jane Doe"»)) !! j = Some SpinnerEnd.
Proof.
  apply (run_spinner_ends (EX := ex_ok) (Some «"Jane Doe"») 3 SPIN_EXTRACT).
  vm_compute. reflexivity.
Defined.

Lemma run_score_shown_witness :
  exists f t pj j sc, Some «"Jane Doe"» = Some f /\
    extract_text_from_pdf (EX := ex_ok) f = Ok t /\
    parse_resume_with_gemini (EX := ex_ok) t = Ok pj /\
    json_loads (Externals := ex_ok) pj = Ok j /\
    calculate_score (Externals := ex_ok) j = Ok sc /\
    «"**Score:** 42/100"» = «"**Score:** "» ++ str_score (Externals := ex_ok) sc ++ «"/100"».
Proof.
  apply (run_score_shown (EX := ex_ok) (Some «"Jane Doe"») «"**Score:** 42/100"»).
  vm_compute. repeat first [left; reflexivity | right].
Defined.

End Demo.
